(** * Certificate search over labelled Kubernetes secrets

    A shallow embedding of package [certs]: the label catalogue of
    [k8s.go] and the searcher of [pkg/certs/searcher.go], followed by the
    properties established about them.

    Conventions of the embedding:
    - Go [string] is [string]; [[]byte] is [list byte], the nil slice
      being the empty list;
    - Go [map[string]T] is [gmap string T]; indexing a map with one
      result is [lookup] followed by the zero value of [T] on a miss,
      indexing with two results ([v, ok := m[k]]) is [lookup] itself;
    - a Go function returning a struct and an error returns a pair
      [T * option error], the nil error being [None]; one returning a
      pointer that is nil exactly when the error is not returns a
      [result];
    - [time.Duration] is [Z], a count of nanoseconds;
    - a function that calls the Kubernetes client returns a [Run]: the
      calls it made and, once it has returned, its value. *)

From Stdlib Require Import ZArith List Ascii.
From stdpp Require Import gmap strings list fin_maps.
Import ListNotations.

Local Open Scope string_scope.

(** ** k8s.go: label keys, certificate names, secret naming *)

Definition certificateLabel : string := "giantswarm.io/certificate".
Definition clusterIDLabel : string := "giantswarm.io/cluster-id".
Definition legacyCertificateLabel : string := "clusterComponent".
Definition legacyClusterIDLabel : string := "clusterID".
Definition SecretNamespace : string := "default".

(** [type Cert string] *)
Definition Cert : Type := string.

Definition APICert : Cert := "api".
Definition CalicoCert : Cert := "calico".
Definition CalicoEtcdClientCert : Cert := "calico-etcd-client".
Definition ClusterOperatorAPICert : Cert := "cluster-operator-api".
Definition EtcdCert : Cert := "etcd".
Definition FlanneldEtcdClientCert : Cert := "flanneld-etcd-client".
Definition NodeOperatorCert : Cert := "node-operator".
Definition PrometheusCert : Cert := "prometheus".
Definition ServiceAccountCert : Cert := "service-account".
Definition WorkerCert : Cert := "worker".

Definition AllCerts : list Cert :=
  [ APICert; CalicoCert; CalicoEtcdClientCert; ClusterOperatorAPICert;
    EtcdCert; FlanneldEtcdClientCert; NodeOperatorCert; PrometheusCert;
    ServiceAccountCert; WorkerCert ].

(** [fmt.Sprintf("%s-%s", clusterID, certificate)]: the verb [%s] copies
    a string operand unchanged. *)
Definition K8sSecretName (clusterID : string) (certificate : Cert) : string :=
  clusterID +:+ "-" +:+ certificate.

(** The map literal of [K8sSecretLabels]; its four keys are distinct
    constants, so the order of the insertions is immaterial. *)
Definition K8sSecretLabels (clusterID : string) (certificate : Cert)
  : gmap string string :=
  <[certificateLabel := certificate]>
    (<[clusterIDLabel := clusterID]>
       (<[legacyCertificateLabel := certificate]>
          (<[legacyClusterIDLabel := clusterID]> ∅))).

(** ** Values of the imported packages *)

(** [corev1.Secret], restricted to the two fields the package reads. *)
Record Secret : Type := {
  Labels : gmap string string;
  Data : gmap string (list Byte.byte)
}.

(** [runtime.Object], the payload of a watch event: an interface value
    holding a [*corev1.Secret] (possibly the nil pointer), a
    [*metav1.Status] as sent with error events, a value of some other
    type, or nothing at all. *)
Inductive Object : Type :=
| ObjSecret (p : option Secret)
| ObjStatus (message : string)
| ObjOther (typeName : string)
| ObjNil.

Module watch.

(** [watch.EventType] with the five event types of apimachinery. *)
Inductive EventType : Type := Added | Modified | Deleted | Bookmark | Error.

Record Event : Type := { type : EventType; object : Object }.

End watch.

(** [metav1.ListOptions], restricted to the field that is set. *)
Record ListOptions : Type := { LabelSelector : string }.

(** The error values [invalidConfigError], ... are declared in the
    package's [error.go], outside the two files embedded here.
    [searcher.go] refers to five of them by name; each name is taken as
    an error kind of its own. *)
Inductive ErrorKind : Type :=
| invalidConfigError
| executionFailedError
| timeoutError
| wrongTypeError
| invalidSecretError.

#[global] Instance ErrorKind_eq_dec : EqDecision ErrorKind.
Proof. solve_decision. Defined.

(** Operands handed to [microerror.Maskf] after the format string. They
    are kept as values next to the format rather than rendered. *)
Inductive Arg : Type :=
| AString (s : string)          (* a string or a Cert *)
| AObject (o : Object)          (* an interface value or a *corev1.Secret *)
| AFromObject (o : Object)      (* apierrors.FromObject(o) *)
| AConfig.                      (* the Config handed to NewSearcher *)

(** A Go [error] as this package produces or forwards it: one of the
    package's kinds annotated by [microerror.Maskf], or an error that
    the Kubernetes client returned. *)
Inductive error : Type :=
| Maskf (kind : ErrorKind) (format : string) (args : list Arg)
| ClientError (message : string).

(** [microerror.Mask] records the call site and leaves the error it
    wraps, and hence its kind, as it is. *)
Definition Mask (err : error) : error := err.

Definition kindOf (err : error) : option ErrorKind :=
  match err with
  | Maskf k _ _ => Some k
  | ClientError _ => None
  end.

(** Result of a Go function returning a pointer or an interface together
    with an error, the pointer being nil exactly when the error is not. *)
Inductive result (T : Type) : Type :=
| Ok (v : T)
| Err (err : error).
Arguments Ok {T} v.
Arguments Err {T} err.

(** [time.Duration] and [time.Second]. *)
Definition Duration : Type := Z.
Definition Second : Duration := 1000000000%Z.

(** What one evaluation of the [select] statement of [search] observes:
    the result channel yields an event, the result channel is found
    closed, or the timer armed for this evaluation fires. *)
Inductive Wakeup : Type :=
| Recv (event : watch.Event)
| Closed
| TimerFired.

Module kubernetes.

(** [kubernetes.Interface] as far as the searcher uses it:
    [CoreV1().Secrets(namespace).Watch(ctx, opts)]. A watch that opens
    is given by what the successive [select] evaluations on its result
    channel observe, in order. The Go runtime decides between the
    channel and the timer, so each observation is a function of the
    duration for which the evaluation arms its timer. *)
Record Interface : Type := {
  Watch : string -> ListOptions -> result (list (Duration -> Wakeup))
}.

End kubernetes.

Module micrologger.

(** [micrologger.Logger]; the searcher stores it and never calls it. *)
Inductive Logger : Type := MkLogger.

End micrologger.

(** Calls made on the Kubernetes client and on the watcher it returns. *)
Inductive Action : Type :=
| WatchAction (namespace : string) (opts : ListOptions)
| StopAction.

(** A run of a function that talks to the client: the calls it made and
    the value it returned, [None] while it is still blocked in [select]
    after the wakeups observed so far. *)
Record Run (A : Type) : Type := { actions : list Action; returned : option A }.
Arguments actions {A} r.
Arguments returned {A} r.

(** ** searcher.go *)

Definition DefaultWatchTimeout : Duration := (3 * Second)%Z.

Record Config : Type := {
  K8sClient : option kubernetes.Interface;
  Logger : option micrologger.Logger;
  WatchTimeout : Duration
}.

Record Searcher : Type := {
  k8sClient : kubernetes.Interface;
  logger : micrologger.Logger;
  watchTimeout : Duration
}.

Definition NewSearcher (config : Config) : result Searcher :=
  match K8sClient config with
  | None => Err (Maskf invalidConfigError "%T.K8sClient must not be empty" [AConfig])
  | Some client =>
    match Logger config with
    | None => Err (Maskf invalidConfigError "%T.Logger must not be empty" [AConfig])
    | Some log =>
      let config :=
        if (WatchTimeout config =? 0)%Z
        then {| K8sClient := K8sClient config; Logger := Logger config;
                WatchTimeout := DefaultWatchTimeout |}
        else config in
      Ok {| k8sClient := client; logger := log;
            watchTimeout := WatchTimeout config |}
    end
  end.

(** [type TLS struct { CA, Crt, Key []byte }], declared in another file
    of the package; the three fields are those [fillTLSFromSecret]
    assigns. *)
Record TLS : Type := { CA : list Byte.byte; Crt : list Byte.byte; Key : list Byte.byte }.

(** [TLS{}] *)
Definition zeroTLS : TLS := {| CA := []; Crt := []; Key := [] |}.

(** The result structs of the bundle searches, declared next to [TLS];
    each field below is the one whose address the corresponding search
    takes. *)
Module AppOperator.
Record t : Type := { APIServer : TLS }.
Definition zero : t := {| APIServer := zeroTLS |}.
End AppOperator.

Module ClusterOperator.
Record t : Type := { APIServer : TLS }.
Definition zero : t := {| APIServer := zeroTLS |}.
End ClusterOperator.

Module Draining.
Record t : Type := { NodeOperator : TLS }.
Definition zero : t := {| NodeOperator := zeroTLS |}.
End Draining.

Module Monitoring.
Record t : Type := { Prometheus : TLS }.
Definition zero : t := {| Prometheus := zeroTLS |}.
End Monitoring.

(** [secret.Labels[key]]: indexing a map of strings yields the empty
    string for a key that is not there. *)
Definition label (secret : Secret) (key : string) : string :=
  default EmptyString (Labels secret !! key).

(** An element of the [certificates] slice of a bundle search,
    [struct { TLS *TLS; Cert Cert }]. The pointer aims at a field of the
    result struct [B] shared by the tasks: it is kept as the pair of
    reading and writing that field. *)
Record certificate (B : Type) : Type := {
  readTLS : B -> TLS;
  writeTLS : TLS -> B -> B;
  certOf : Cert
}.
Arguments readTLS {B} c b.
Arguments writeTLS {B} c tls b.
Arguments certOf {B} c.

(** ** Vocabulary of the statements *)

(** Wakeups that the loop passes over: an event whose type has no case
    in the [switch] or the empty case of [watch.Deleted]. *)
Definition skipped (w : Wakeup) : bool :=
  match w with
  | Recv event =>
    match watch.type event with
    | watch.Deleted | watch.Modified | watch.Bookmark => true
    | watch.Added | watch.Error => false
    end
  | Closed | TimerFired => false
  end.

Definition deleted (object : Object) : Wakeup :=
  Recv {| watch.type := watch.Deleted; watch.object := object |}.

Definition added (secret : Secret) : Wakeup :=
  Recv {| watch.type := watch.Added; watch.object := ObjSecret (Some secret) |}.

(** The contract of a bundle search with the single member [member]:
    the member's value ends up in the result struct built by [filled],
    and a failing member yields the zero struct with the member's own
    error. *)
Definition all_or_nothing {B : Type} (bundle : Run (B * option error))
    (member : Run (TLS * option error)) (filled : TLS → B) (zero : B) : Prop :=
  (∀ tls, returned member = Some (tls, None) →
          returned bundle = Some (filled tls, None)) ∧
  (∀ tls err, returned member = Some (tls, Some err) →
              returned bundle = Some (zero, Some err)).

(** ** Sample values *)

(** A client whose watches all open and observe [wakeups] whatever the
    timer is armed for, and a searcher built on it. *)
Definition fakeClient (wakeups : list Wakeup) : kubernetes.Interface :=
  {| kubernetes.Watch := λ _ _, Ok (map (λ w _, w) wakeups) |}.

(** A client on whose watches the event [event] is ready [delay]
    nanoseconds after the first [select] began, and nothing after it. *)
Definition slowClient (delay : Duration) (event : watch.Event)
  : kubernetes.Interface :=
  {| kubernetes.Watch := λ _ _,
       Ok [ (λ timeout, if (delay <? timeout)%Z then Recv event else TimerFired);
            (λ _, TimerFired) ] |}.

Definition fakeSearcher (wakeups : list Wakeup) : Searcher :=
  {| k8sClient := fakeClient wakeups;
     logger := micrologger.MkLogger;
     watchTimeout := DefaultWatchTimeout |}.

Definition bytes (s : string) : list Byte.byte := String.list_byte_of_string s.

Definition sampleData : gmap string (list Byte.byte) :=
  <["ca" := bytes "CA=="]>
    (<["crt" := bytes "CRT=="]> (<["key" := bytes "KEY=="]> ∅)).

(** The secret of cluster "c-abc12" for the certificate
    "cluster-operator-api", its cluster label stored under [key]. *)
Definition sampleSecret (key : string) : Secret :=
  {| Labels := <[key := "c-abc12"]> (<[certificateLabel := "cluster-operator-api"]> ∅);
     Data := sampleData |}.

(** The same secret with other labels or with some data keys removed. *)
Definition secretOf (key cluster cert : string) (missing : list string) : Secret :=
  {| Labels := <[key := cluster]> (<[certificateLabel := cert]> ∅);
     Data := foldr delete sampleData missing |}.

Definition errorEvent (message : string) : Wakeup :=
  Recv {| watch.type := watch.Error; watch.object := ObjStatus message |}.

(** [time.Millisecond]. *)
Definition Millisecond : Duration := 1000000%Z.

(** The watch on which the events of a timeline become ready at the
    given times, counted from the opening of the watch, and nothing
    after them. A [select] starts when the previous event was received,
    [start], and arms its timer then: it receives the next event when
    that event is ready before the timer fires, and is woken by the
    timer otherwise. *)
Fixpoint timeline (start : Duration) (events : list (Duration * watch.Event))
  : list (Duration -> Wakeup) :=
  match events with
  | [] => [fun _ => TimerFired]
  | (ready, event) :: events' =>
    (fun timeout =>
       if (ready - start <? timeout)%Z then Recv event else TimerFired)
    :: timeline ready events'
  end.

(** A searcher with the given watch timeout on a client whose watches
    all follow the timeline [events]. *)
Definition timedSearcher (timeout : Duration)
    (events : list (Duration * watch.Event)) : Searcher :=
  {| k8sClient := {| kubernetes.Watch := λ _ _, Ok (timeline 0%Z events) |};
     logger := micrologger.MkLogger;
     watchTimeout := timeout |}.

(** A client none of whose watches opens: [Watch] returns an error. *)
Definition failingClient (message : string) : kubernetes.Interface :=
  {| kubernetes.Watch := λ _ _, Err (ClientError message) |}.

Definition failingSearcher (message : string) : Searcher :=
  {| k8sClient := failingClient message;
     logger := micrologger.MkLogger;
     watchTimeout := DefaultWatchTimeout |}.

(** Number of [watcher.Stop] calls among the calls of a run. *)
Fixpoint stops (calls : list Action) : nat :=
  match calls with
  | [] => 0
  | StopAction :: calls' => S (stops calls')
  | WatchAction _ _ :: calls' => stops calls'
  end.

(** The string contains a dash. *)
Fixpoint hasDash (s : string) : bool :=
  match s with
  | EmptyString => false
  | String c s' => if Ascii.eqb c "-"%char then true else hasDash s'
  end.

(** The secret with its label [key] set to [value]. *)
Definition withLabel (key value : string) (secret : Secret) : Secret :=
  {| Labels := <[key := value]> (Labels secret); Data := Data secret |}.

Section Searcher.

(** Two constants that [searcher.go] uses and that the package declares
    elsewhere: the label key [clusterLabel] and the certificate name
    [AppOperatorAPICert]. *)
Variable clusterLabel : string.
Variable AppOperatorAPICert : Cert.

(** The [for { select { ... } }] loop of [search], run on what its
    [select] evaluations observe. [time.After] is called anew by every
    evaluation, so a timer may fire after any number of received
    events. *)
Fixpoint searchLoop (selector : string) (wakeups : list Wakeup)
  : option (result Secret) :=
  match wakeups with
  | [] => None
  | Closed :: _ =>
    Some (Err (Maskf executionFailedError
      "watching secrets, selector = %q: unexpected closed channel"
      [AString selector]))
  | Recv event :: wakeups' =>
    match watch.type event with
    | watch.Added =>
      match watch.object event with
      | ObjSecret (Some secret) => Some (Ok secret)
      | _ =>
        Some (Err (Maskf wrongTypeError "expected '%T', got '%T'"
          [AObject (ObjSecret None); AObject (watch.object event)]))
      end
    | watch.Deleted => searchLoop selector wakeups'
    | watch.Error =>
      Some (Err (Maskf executionFailedError
        "watching secrets, selector = %q: %v"
        [AString selector; AFromObject (watch.object event)]))
    | watch.Modified | watch.Bookmark => searchLoop selector wakeups'
    end
  | TimerFired :: _ =>
    Some (Err (Maskf timeoutError "waiting secrets, selector = %q"
      [AString selector]))
  end.

(** What the [select] evaluations of searcher [s] observe on a watch:
    each of them arms [time.After(s.watchTimeout)]. *)
Definition observed (s : Searcher) (watcher : list (Duration -> Wakeup))
  : list Wakeup :=
  map (fun select => select (watchTimeout s)) watcher.

(** [search]. The context only travels to [Watch] and the [tls] pointer
    is not used by the body; both are left out. [watcher.Stop] is
    deferred, hence called once [Watch] has succeeded and the function
    returns. *)
Definition search (s : Searcher) (clusterID : string) (cert : Cert)
  : Run (result Secret) :=
  let o := {| LabelSelector :=
                certificateLabel +:+ "=" +:+ cert +:+ ", " +:+
                clusterLabel +:+ "=" +:+ clusterID |} in
  match kubernetes.Watch (k8sClient s) SecretNamespace o with
  | Err err =>
    {| actions := [WatchAction SecretNamespace o];
       returned := Some (Err (Mask err)) |}
  | Ok watcher =>
    match searchLoop (LabelSelector o) (observed s watcher) with
    | Some r =>
      {| actions := [WatchAction SecretNamespace o; StopAction];
         returned := Some r |}
    | None =>
      {| actions := [WatchAction SecretNamespace o]; returned := None |}
    end
  end.

(** [fillTLSFromSecret] writes through [tls]; the struct is threaded
    through and returned next to the error. An assignment
    [tls.CA, ok = secret.Data["ca"]] takes place whether or not the key
    is there, storing the nil slice when it is not. *)
Definition fillTLSFromSecret (tls : TLS) (secret : Secret)
    (cluster : string) (cert : Cert) : TLS * option error :=
  let l := label secret clusterLabel in
  if decide (cluster ≠ l) then
    (tls, Some (Maskf invalidSecretError "expected cluster = %q, got %q"
                  [AString cluster; AString l]))
  else
  let l := label secret certificateLabel in
  if decide (cert ≠ l) then
    (tls, Some (Maskf invalidSecretError "expected certificate = %q, got %q"
                  [AString cert; AString l]))
  else
  let ca := Data secret !! "ca" in
  let tls := {| CA := default [] ca; Crt := Crt tls; Key := Key tls |} in
  if decide (ca = None) then
    (tls, Some (Maskf invalidSecretError "%q key missing" [AString "ca"]))
  else
  let crt := Data secret !! "crt" in
  let tls := {| CA := CA tls; Crt := default [] crt; Key := Key tls |} in
  if decide (crt = None) then
    (tls, Some (Maskf invalidSecretError "%q key missing" [AString "crt"]))
  else
  let key := Data secret !! "key" in
  let tls := {| CA := CA tls; Crt := Crt tls; Key := default [] key |} in
  if decide (key = None) then
    (tls, Some (Maskf invalidSecretError "%q key missing" [AString "key"]))
  else
  (tls, None).

Definition SearchTLS (s : Searcher) (clusterID : string) (cert : Cert)
  : Run (TLS * option error) :=
  let tls := zeroTLS in
  let r := search s clusterID cert in
  {| actions := actions r;
     returned :=
       match returned r with
       | None => None
       | Some (Err err) => Some (zeroTLS, Some (Mask err))
       | Some (Ok secret) =>
         let '(tls, err) := fillTLSFromSecret tls secret clusterID cert in
         match err with
         | Some err => Some (zeroTLS, Some (Mask err))
         | None => Some (tls, None)
         end
       end |}.

(** The function literal handed to [g.Go] for one element [c] of
    [certificates], run on the shared result struct [b]: the search
    touches nothing shared, the filling happens with the mutex held. *)
Definition task {B : Type} (s : Searcher) (clusterID : string)
    (c : certificate B) (b : B) : Run (B * option error) :=
  let r := search s clusterID (certOf c) in
  {| actions := actions r;
     returned :=
       match returned r with
       | None => None
       | Some (Err err) => Some (b, Some (Mask err))
       | Some (Ok secret) =>
         let '(tls, err) :=
           fillTLSFromSecret (readTLS c b) secret clusterID (certOf c) in
         Some (writeTLS c tls b, Mask <$> err)
       end |}.

(** [errgroup.Group]: [Go] starts the tasks and [Wait] returns, once all
    of them have returned, the first error that a task returned, nil
    when there was none. The tasks are run one after the other in the
    order in which they were started; a bundle of this package starts a
    single task, for which that is the only schedule. [Wait] does not
    return while a task is blocked. *)
Fixpoint wait {B : Type} (tasks : list (B -> Run (B * option error)))
    (b : B) : Run (B * option error) :=
  match tasks with
  | [] => {| actions := []; returned := Some (b, None) |}
  | f :: tasks' =>
    let r := f b in
    match returned r with
    | None =>
      {| actions := actions r ++ actions (wait tasks' b); returned := None |}
    | Some (b', err) =>
      let r' := wait tasks' b' in
      {| actions := actions r ++ actions r';
         returned :=
           match returned r' with
           | None => None
           | Some (b'', err') =>
             Some (b'', match err with Some _ => err | None => err' end)
           end |}
    end
  end.

(** The body shared, word for word, by the four bundle searches: declare
    the result, start one task per element of [certificates], wait, and
    return the zero struct with the error or the filled struct. *)
Definition searchBundle {B : Type} (zero : B)
    (certificates : list (certificate B))
    (s : Searcher) (clusterID : string) : Run (B * option error) :=
  let r := wait (map (task s clusterID) certificates) zero in
  {| actions := actions r;
     returned :=
       match returned r with
       | None => None
       | Some (_, Some err) => Some (zero, Some (Mask err))
       | Some (bundle, None) => Some (bundle, None)
       end |}.

Definition SearchAppOperator : Searcher -> string -> Run (AppOperator.t * option error) :=
  searchBundle AppOperator.zero
    [ {| readTLS := AppOperator.APIServer;
         writeTLS := fun tls _ => {| AppOperator.APIServer := tls |};
         certOf := AppOperatorAPICert |} ].

Definition SearchClusterOperator : Searcher -> string -> Run (ClusterOperator.t * option error) :=
  searchBundle ClusterOperator.zero
    [ {| readTLS := ClusterOperator.APIServer;
         writeTLS := fun tls _ => {| ClusterOperator.APIServer := tls |};
         certOf := ClusterOperatorAPICert |} ].

Definition SearchDraining : Searcher -> string -> Run (Draining.t * option error) :=
  searchBundle Draining.zero
    [ {| readTLS := Draining.NodeOperator;
         writeTLS := fun tls _ => {| Draining.NodeOperator := tls |};
         certOf := NodeOperatorCert |} ].

Definition SearchMonitoring : Searcher -> string -> Run (Monitoring.t * option error) :=
  searchBundle Monitoring.zero
    [ {| readTLS := Monitoring.Prometheus;
         writeTLS := fun tls _ => {| Monitoring.Prometheus := tls |};
         certOf := PrometheusCert |} ].

(** The options with which [search] opens its watch. *)
Definition selectorOf (clusterID : string) (cert : Cert) : ListOptions :=
  {| LabelSelector :=
       "giantswarm.io/certificate=" +:+ cert +:+ ", " +:+
       clusterLabel +:+ "=" +:+ clusterID |}.

(** The watch that searcher [s] obtains for a cluster and a certificate
    opens and the [select] evaluations of [s] observe [wakeups] on it. *)
Definition watches (s : Searcher) (clusterID : string) (cert : Cert)
    (wakeups : list Wakeup) : Prop :=
  ∃ watcher,
    kubernetes.Watch (k8sClient s) SecretNamespace (selectorOf clusterID cert)
    = Ok watcher ∧
    observed s watcher = wakeups.

(** ** The select loop *)

Lemma searchLoop_skipped selector pre wakeups :
  Forall (λ w, skipped w = true) pre →
  searchLoop selector (pre ++ wakeups) = searchLoop selector wakeups.
Proof.
  induction 1 as [|w pre Hw _ IH]; [done|].
  destruct w as [[[] object]| |]; simpl in *; try done.
Qed.

Lemma searchLoop_only_skipped selector pre :
  Forall (λ w, skipped w = true) pre → searchLoop selector pre = None.
Proof.
  intros H. rewrite <- (app_nil_r pre). by rewrite searchLoop_skipped.
Qed.

Lemma searchLoop_drop_deleted selector pre object post :
  searchLoop selector (pre ++ deleted object :: post)
  = searchLoop selector (pre ++ post).
Proof.
  induction pre as [|w pre IH]; [done|].
  destruct w as [[[] o]| |]; simpl; try done.
Qed.

Lemma search_selector s clusterID cert :
  search s clusterID cert =
  match kubernetes.Watch (k8sClient s) SecretNamespace (selectorOf clusterID cert) with
  | Err err =>
    {| actions := [WatchAction SecretNamespace (selectorOf clusterID cert)];
       returned := Some (Err err) |}
  | Ok watcher =>
    match searchLoop (LabelSelector (selectorOf clusterID cert))
            (observed s watcher) with
    | Some r =>
      {| actions := [WatchAction SecretNamespace (selectorOf clusterID cert); StopAction];
         returned := Some r |}
    | None =>
      {| actions := [WatchAction SecretNamespace (selectorOf clusterID cert)];
         returned := None |}
    end
  end.
Proof. reflexivity. Qed.

Lemma search_watches s clusterID cert wakeups :
  watches s clusterID cert wakeups →
  returned (search s clusterID cert)
  = searchLoop (LabelSelector (selectorOf clusterID cert)) wakeups.
Proof.
  intros (watcher & H & <-). rewrite search_selector, H.
  by destruct (searchLoop _ _).
Qed.

Lemma SearchTLS_watches s clusterID cert wakeups :
  watches s clusterID cert wakeups →
  returned (SearchTLS s clusterID cert) =
  match searchLoop (LabelSelector (selectorOf clusterID cert)) wakeups with
  | None => None
  | Some (Err err) => Some (zeroTLS, Some err)
  | Some (Ok secret) =>
    match fillTLSFromSecret zeroTLS secret clusterID cert with
    | (_, Some err) => Some (zeroTLS, Some err)
    | (tls, None) => Some (tls, None)
    end
  end.
Proof.
  intros H. unfold SearchTLS. simpl. rewrite (search_watches _ _ _ _ H).
  by destruct (searchLoop _ _) as [[secret|err]|].
Qed.

(** ** Timer expiry *)

(** The timer case of the [select]: when a timer fires after nothing
    but events that the loop passes over, the search and the
    single-certificate search built on it return the timeout error, the
    latter together with the zero TLS value. The timer that fires is the
    one armed by the evaluation of the [select] that observes it, not
    one armed when the search began. *)
Lemma search_times_out s clusterID cert pre post :
  watches s clusterID cert (pre ++ TimerFired :: post) →
  Forall (λ w, skipped w = true) pre →
  ∃ err,
    kindOf err = Some timeoutError ∧
    returned (search s clusterID cert) = Some (Err err) ∧
    returned (SearchTLS s clusterID cert) = Some (zeroTLS, Some err).
Proof.
  intros Hw Hpre.
  exists (Maskf timeoutError "waiting secrets, selector = %q"
            [AString (LabelSelector (selectorOf clusterID cert))]).
  split; [done|].
  rewrite (search_watches _ _ _ _ Hw), (SearchTLS_watches _ _ _ _ Hw).
  by rewrite searchLoop_skipped.
Qed.

(** ** Deleted events *)

(** C6. A Deleted event decides nothing. Taking one Deleted event out of
    the wakeups of a watch, wherever it stands, changes neither what the
    search returns nor whether it returns; and as long as Deleted events
    are all the [select] has observed, the search has returned neither a
    secret nor an error: it is still waiting. *)
Theorem deleted_event_is_ignored clusterID cert :
  (∀ s s' pre object post,
     watches s clusterID cert (pre ++ deleted object :: post) →
     watches s' clusterID cert (pre ++ post) →
     search s clusterID cert = search s' clusterID cert ∧
     SearchTLS s clusterID cert = SearchTLS s' clusterID cert) ∧
  (∀ s objects,
     watches s clusterID cert (map deleted objects) →
     returned (search s clusterID cert) = None ∧
     returned (SearchTLS s clusterID cert) = None).
Proof.
  split.
  - intros s s' pre object post Hs Hs'.
    assert (search s clusterID cert = search s' clusterID cert) as Heq.
    { destruct Hs as (w & Hs & Hw), Hs' as (w' & Hs' & Hw').
      rewrite !search_selector, Hs, Hs', Hw, Hw'.
      by rewrite searchLoop_drop_deleted. }
    split; [done|]. unfold SearchTLS. by rewrite Heq.
  - intros s objects Hs.
    assert (searchLoop (LabelSelector (selectorOf clusterID cert))
              (map deleted objects) = None) as Hloop.
    { apply searchLoop_only_skipped, Forall_forall.
      intros w Hin. apply list_elem_of_In, in_map_iff in Hin as (o & <- & _). done. }
    rewrite (SearchTLS_watches _ _ _ _ Hs), (search_watches _ _ _ _ Hs).
    by rewrite Hloop.
Qed.

(** ** Failure causes and their error kinds *)

(** C2, as the code has it. Of the three failure causes, the closed
    channel and the error event both produce [executionFailedError],
    told apart by their messages only, and the timer produces
    [timeoutError], a kind different from that one. *)
Theorem failure_causes_and_kinds clusterID cert pre post :
  Forall (λ w, skipped w = true) pre →
  (∀ s, watches s clusterID cert (pre ++ Closed :: post) →
     returned (search s clusterID cert) =
     Some (Err (Maskf executionFailedError
       "watching secrets, selector = %q: unexpected closed channel"
       [AString (LabelSelector (selectorOf clusterID cert))]))) ∧
  (∀ s object,
     watches s clusterID cert
       (pre ++ Recv {| watch.type := watch.Error; watch.object := object |} :: post) →
     returned (search s clusterID cert) =
     Some (Err (Maskf executionFailedError
       "watching secrets, selector = %q: %v"
       [AString (LabelSelector (selectorOf clusterID cert)); AFromObject object]))) ∧
  (∀ s, watches s clusterID cert (pre ++ TimerFired :: post) →
     returned (search s clusterID cert) =
     Some (Err (Maskf timeoutError "waiting secrets, selector = %q"
       [AString (LabelSelector (selectorOf clusterID cert))]))) ∧
  executionFailedError ≠ timeoutError.
Proof.
  intros Hpre. repeat split; try done.
  all: intros; erewrite search_watches by eassumption.
  all: by rewrite searchLoop_skipped.
Qed.

(** ** Validation and decoding of a secret *)

Lemma fill_cluster_mismatch tls secret cluster cert :
  label secret clusterLabel ≠ cluster →
  fillTLSFromSecret tls secret cluster cert =
  (tls, Some (Maskf invalidSecretError "expected cluster = %q, got %q"
                [AString cluster; AString (label secret clusterLabel)])).
Proof. intros H. unfold fillTLSFromSecret. by rewrite decide_True. Qed.

Lemma fill_certificate_mismatch tls secret cluster cert :
  label secret clusterLabel = cluster →
  label secret certificateLabel ≠ cert →
  fillTLSFromSecret tls secret cluster cert =
  (tls, Some (Maskf invalidSecretError "expected certificate = %q, got %q"
                [AString cert; AString (label secret certificateLabel)])).
Proof.
  intros H1 H2. unfold fillTLSFromSecret.
  rewrite decide_False by (by intros []). by rewrite decide_True.
Qed.

Lemma fill_labels_match tls secret cluster cert :
  label secret clusterLabel = cluster →
  label secret certificateLabel = cert →
  fillTLSFromSecret tls secret cluster cert =
  match Data secret !! "ca" with
  | None =>
    ({| CA := []; Crt := Crt tls; Key := Key tls |},
     Some (Maskf invalidSecretError "%q key missing" [AString "ca"]))
  | Some ca =>
    match Data secret !! "crt" with
    | None =>
      ({| CA := ca; Crt := []; Key := Key tls |},
       Some (Maskf invalidSecretError "%q key missing" [AString "crt"]))
    | Some crt =>
      match Data secret !! "key" with
      | None =>
        ({| CA := ca; Crt := crt; Key := [] |},
         Some (Maskf invalidSecretError "%q key missing" [AString "key"]))
      | Some key => ({| CA := ca; Crt := crt; Key := key |}, None)
      end
    end
  end.
Proof.
  intros H1 H2. unfold fillTLSFromSecret.
  rewrite !(decide_False (P := _ ≠ _)) by (by intros []).
  destruct (Data secret !! "ca") as [ca|]; [|done].
  destruct (Data secret !! "crt") as [crt|]; [|done].
  by destruct (Data secret !! "key") as [key|].
Qed.

Lemma label_lookup secret key value :
  Labels secret !! key = Some value → label secret key = value.
Proof. unfold label. by intros ->. Qed.

Lemma SearchTLS_added s clusterID cert pre secret post :
  watches s clusterID cert (pre ++ added secret :: post) →
  Forall (λ w, skipped w = true) pre →
  returned (SearchTLS s clusterID cert) =
  match fillTLSFromSecret zeroTLS secret clusterID cert with
  | (_, Some err) => Some (zeroTLS, Some err)
  | (tls, None) => Some (tls, None)
  end.
Proof.
  intros Hw Hpre. rewrite (SearchTLS_watches _ _ _ _ Hw).
  by rewrite searchLoop_skipped.
Qed.

(** C3. When the watch delivers an Added event with a secret whose
    cluster and certificate labels are the requested ones and which has
    the data keys "ca", "crt" and "key", [SearchTLS] returns without an
    error the TLS value holding exactly these three data values. *)
Theorem SearchTLS_returns_the_secret_data
    s clusterID cert pre secret post ca crt key :
  watches s clusterID cert (pre ++ added secret :: post) →
  Forall (λ w, skipped w = true) pre →
  Labels secret !! clusterLabel = Some clusterID →
  Labels secret !! certificateLabel = Some cert →
  Data secret !! "ca" = Some ca →
  Data secret !! "crt" = Some crt →
  Data secret !! "key" = Some key →
  returned (SearchTLS s clusterID cert)
  = Some ({| CA := ca; Crt := crt; Key := key |}, None).
Proof.
  intros Hw Hpre Hcluster Hcert Hca Hcrt Hkey.
  rewrite (SearchTLS_added _ _ _ _ _ _ Hw Hpre).
  rewrite fill_labels_match by by apply label_lookup.
  by rewrite Hca, Hcrt, Hkey.
Qed.

(** C4. When the secret of the Added event carries a cluster label or a
    certificate label other than the requested one (a label that is not
    there reads as the empty string), or lacks one of the data keys
    "ca", "crt", "key", [SearchTLS] returns the zero TLS value with an
    error of kind [invalidSecretError]; with both labels as requested,
    the error names a data key that the secret lacks. *)
Theorem invalid_secret_is_rejected s clusterID cert pre secret post :
  watches s clusterID cert (pre ++ added secret :: post) →
  Forall (λ w, skipped w = true) pre →
  label secret clusterLabel ≠ clusterID ∨
  label secret certificateLabel ≠ cert ∨
  (∃ k, k ∈ ["ca"; "crt"; "key"] ∧ Data secret !! k = None) →
  ∃ err,
    returned (SearchTLS s clusterID cert) = Some (zeroTLS, Some err) ∧
    kindOf err = Some invalidSecretError ∧
    (label secret clusterLabel = clusterID →
     label secret certificateLabel = cert →
     ∃ k, err = Maskf invalidSecretError "%q key missing" [AString k] ∧
          k ∈ ["ca"; "crt"; "key"] ∧ Data secret !! k = None).
Proof.
  intros Hw Hpre Hdefect.
  rewrite (SearchTLS_added _ _ _ _ _ _ Hw Hpre).
  destruct (decide (label secret clusterLabel = clusterID)) as [Hcl|Hcl].
  2: { rewrite fill_cluster_mismatch by done. eexists. by repeat split. }
  destruct (decide (label secret certificateLabel = cert)) as [Hce|Hce].
  2: { rewrite fill_certificate_mismatch by done. eexists. by repeat split. }
  rewrite fill_labels_match by done.
  destruct (Data secret !! "ca") as [ca|] eqn:Hca.
  2: { eexists. repeat split. intros _ _. exists "ca". by repeat constructor. }
  destruct (Data secret !! "crt") as [crt|] eqn:Hcrt.
  2: { eexists. repeat split. intros _ _. exists "crt". by repeat constructor. }
  destruct (Data secret !! "key") as [key|] eqn:Hkey.
  2: { eexists. repeat split. intros _ _. exists "key". by repeat constructor. }
  exfalso. destruct Hdefect as [?|[?|(k & Hk & Hnone)]]; [done..|].
  set_unfold in Hk. destruct Hk as [->|[->|[->|[]]]]; congruence.
Qed.

(** C10. [fillTLSFromSecret] checks the cluster label, then the
    certificate label, then the data keys "ca", "crt", "key", and
    reports the first check that fails whatever the later ones would
    find. The TLS value it leaves behind shows where it stopped: it is
    untouched after a label failure, and after a missing key the fields
    of the keys not yet looked at are untouched. *)
Theorem validation_order tls secret cluster cert :
  (label secret clusterLabel ≠ cluster →
   fillTLSFromSecret tls secret cluster cert =
   (tls, Some (Maskf invalidSecretError "expected cluster = %q, got %q"
                 [AString cluster; AString (label secret clusterLabel)]))) ∧
  (label secret clusterLabel = cluster →
   label secret certificateLabel ≠ cert →
   fillTLSFromSecret tls secret cluster cert =
   (tls, Some (Maskf invalidSecretError "expected certificate = %q, got %q"
                 [AString cert; AString (label secret certificateLabel)]))) ∧
  (label secret clusterLabel = cluster →
   label secret certificateLabel = cert →
   Data secret !! "ca" = None →
   fillTLSFromSecret tls secret cluster cert =
   ({| CA := []; Crt := Crt tls; Key := Key tls |},
    Some (Maskf invalidSecretError "%q key missing" [AString "ca"]))) ∧
  (∀ ca,
   label secret clusterLabel = cluster →
   label secret certificateLabel = cert →
   Data secret !! "ca" = Some ca →
   Data secret !! "crt" = None →
   fillTLSFromSecret tls secret cluster cert =
   ({| CA := ca; Crt := []; Key := Key tls |},
    Some (Maskf invalidSecretError "%q key missing" [AString "crt"]))) ∧
  (∀ ca crt,
   label secret clusterLabel = cluster →
   label secret certificateLabel = cert →
   Data secret !! "ca" = Some ca →
   Data secret !! "crt" = Some crt →
   Data secret !! "key" = None →
   fillTLSFromSecret tls secret cluster cert =
   ({| CA := ca; Crt := crt; Key := [] |},
    Some (Maskf invalidSecretError "%q key missing" [AString "key"]))).
Proof.
  split; [apply fill_cluster_mismatch|].
  split; [apply fill_certificate_mismatch|].
  repeat split; intros; rewrite fill_labels_match by done;
    repeat match goal with H : Data secret !! _ = _ |- _ => rewrite H; clear H end;
    reflexivity.
Qed.

(** ** Bundle searches *)

(** The error that [Wait] returns is the error of one of the tasks. *)
Lemma wait_error {B : Type} (tasks : list (B → Run (B * option error))) b b' err :
  returned (wait tasks b) = Some (b', Some err) →
  ∃ f b0 b1, f ∈ tasks ∧ returned (f b0) = Some (b1, Some err).
Proof.
  revert b. induction tasks as [|f tasks IH]; intros b; simpl; [done|].
  destruct (returned (f b)) as [[b1 e]|] eqn:Hf; simpl; [|done].
  destruct (returned (wait tasks b1)) as [[b2 e']|] eqn:Hw; [|done].
  intros [= -> He]. destruct e as [e|].
  - injection He as ->. exists f, b, b1. split; [left|done].
  - subst e'. destruct (IH _ Hw) as (g & b0 & b3 & Hin & Hg).
    exists g, b0, b3. split; [by right|done].
Qed.

Lemma searchBundle_single {B : Type} (zero : B) (c : certificate B) s clusterID :
  readTLS c zero = zeroTLS →
  returned (searchBundle zero [c] s clusterID) =
  match returned (SearchTLS s clusterID (certOf c)) with
  | None => None
  | Some (tls, None) => Some (writeTLS c tls zero, None)
  | Some (_, Some err) => Some (zero, Some err)
  end.
Proof.
  intros Hzero. unfold searchBundle, SearchTLS, task. simpl. rewrite Hzero.
  destruct (returned (search s clusterID (certOf c))) as [[secret|err]|]; try done.
  by destruct (fillTLSFromSecret _ _ _ _) as [tls [err|]].
Qed.

Lemma single_all_or_nothing {B : Type} (zero : B) (c : certificate B) s clusterID :
  readTLS c zero = zeroTLS →
  all_or_nothing (searchBundle zero [c] s clusterID)
    (SearchTLS s clusterID (certOf c)) (λ tls, writeTLS c tls zero) zero.
Proof.
  intros Hzero. split; intros; by rewrite searchBundle_single, H.
Qed.

(** C5. Each of the four bundle searches has one member, the
    single-certificate search for its certificate. When that search
    succeeds, the bundle search returns the struct whose TLS field is
    the value found; when it fails, the bundle search returns the zero
    struct together with the very error of that search. *)
Theorem bundle_searches_are_all_or_nothing s clusterID :
  all_or_nothing (SearchAppOperator s clusterID)
    (SearchTLS s clusterID AppOperatorAPICert)
    (λ tls, {| AppOperator.APIServer := tls |}) AppOperator.zero ∧
  all_or_nothing (SearchClusterOperator s clusterID)
    (SearchTLS s clusterID ClusterOperatorAPICert)
    (λ tls, {| ClusterOperator.APIServer := tls |}) ClusterOperator.zero ∧
  all_or_nothing (SearchDraining s clusterID)
    (SearchTLS s clusterID NodeOperatorCert)
    (λ tls, {| Draining.NodeOperator := tls |}) Draining.zero ∧
  all_or_nothing (SearchMonitoring s clusterID)
    (SearchTLS s clusterID PrometheusCert)
    (λ tls, {| Monitoring.Prometheus := tls |}) Monitoring.zero.
Proof.
  unfold SearchAppOperator, SearchClusterOperator, SearchDraining,
    SearchMonitoring.
  split; [|split; [|split]];
    match goal with
    | |- all_or_nothing (searchBundle ?zero [?c] _ _) _ _ _ =>
      exact (single_all_or_nothing zero c s clusterID eq_refl)
    end.
Qed.

(** ** The watch that is opened *)

(** C7. The first call of a search opens a watch in the namespace
    "default" whose label selector is the certificate label key, "=",
    the requested certificate, ", ", the cluster label key, "=", the
    requested cluster ID; the only call after it, if any, stops that
    watch. [SearchTLS] makes the same calls. *)
Theorem search_opens_watch_with_selector s clusterID cert :
  ∃ rest,
    actions (search s clusterID cert) =
    WatchAction "default"
      {| LabelSelector :=
           "giantswarm.io/certificate=" +:+ cert +:+ ", " +:+
           clusterLabel +:+ "=" +:+ clusterID |} :: rest ∧
    (rest = [] ∨ rest = [StopAction]) ∧
    actions (SearchTLS s clusterID cert) = actions (search s clusterID cert).
Proof.
  unfold SearchTLS. simpl actions. rewrite search_selector.
  destruct (kubernetes.Watch _ _ _) as [wakeups|err];
    [destruct (searchLoop _ _)|];
    eexists; (split; [reflexivity|split; [|reflexivity]]);
    first [by left | by right].
Qed.

(** ** Construction *)

(** C9. [NewSearcher] fails with [invalidConfigError] when the config
    has no client or no logger. With both it succeeds, and the searcher
    keeps them and waits on watches for the configured timeout, or for
    three seconds when the configured timeout is zero. *)
Theorem NewSearcher_contract config :
  (K8sClient config = None ∨ Logger config = None →
   ∃ err, NewSearcher config = Err err ∧ kindOf err = Some invalidConfigError) ∧
  (∀ client log,
     K8sClient config = Some client →
     Logger config = Some log →
     ∃ s, NewSearcher config = Ok s ∧
          k8sClient s = client ∧ logger s = log ∧
          (WatchTimeout config = 0%Z → watchTimeout s = 3000000000%Z) ∧
          (WatchTimeout config ≠ 0%Z → watchTimeout s = WatchTimeout config)).
Proof.
  unfold NewSearcher. split.
  - intros [H|H]; rewrite H; [by eexists|].
    destruct (K8sClient config); by eexists.
  - intros client log -> ->. eexists. split; [reflexivity|]. simpl.
    destruct (Z.eqb_spec (WatchTimeout config) 0) as [Hz|Hz]; simpl;
      by repeat split.
Qed.

End Searcher.

(** ** The label catalogue *)

(** C8. [K8sSecretName] and [K8sSecretLabels] are functions of their two
    arguments alone. The name is the cluster ID, a dash, the certificate
    name. The label map binds the certificate label of the current and
    of the legacy scheme to the certificate name as it was given, the
    cluster-ID label of both schemes to the cluster ID, and nothing
    else. *)
Theorem secret_name_and_labels clusterID cert :
  K8sSecretName clusterID cert = clusterID +:+ "-" +:+ cert ∧
  K8sSecretLabels clusterID cert !! "giantswarm.io/certificate" = Some cert ∧
  K8sSecretLabels clusterID cert !! "giantswarm.io/cluster-id" = Some clusterID ∧
  K8sSecretLabels clusterID cert !! "clusterComponent" = Some cert ∧
  K8sSecretLabels clusterID cert !! "clusterID" = Some clusterID ∧
  dom (K8sSecretLabels clusterID cert) =
    {[ "giantswarm.io/certificate"; "giantswarm.io/cluster-id";
       "clusterComponent"; "clusterID" ]} ∧
  (∀ clusterID' cert',
     clusterID' = clusterID → cert' = cert →
     K8sSecretName clusterID' cert' = K8sSecretName clusterID cert ∧
     K8sSecretLabels clusterID' cert' = K8sSecretLabels clusterID cert).
Proof.
  unfold K8sSecretLabels, certificateLabel, clusterIDLabel,
    legacyCertificateLabel, legacyClusterIDLabel.
  split; [done|].
  do 4 (split; [by simplify_map_eq|]).
  split.
  - rewrite !dom_insert_L, dom_empty_L. set_solver.
  - by intros ? ? -> ->.
Qed.

(** ** The statements at sample values *)

(** A hypothesis about sample values holds by evaluation. *)
Ltac evaluated :=
  solve [ reflexivity
        | eexists; split; reflexivity
        | repeat constructor
        | vm_compute; discriminate ].

Lemma deleted_event_is_ignored_witness :
  SearchTLS clusterIDLabel
    (fakeSearcher [deleted ObjNil; added (sampleSecret clusterIDLabel)])
    "c-abc12" ClusterOperatorAPICert
  = SearchTLS clusterIDLabel
      (fakeSearcher [added (sampleSecret clusterIDLabel)])
      "c-abc12" ClusterOperatorAPICert ∧
  returned (SearchTLS clusterIDLabel
              (fakeSearcher (map deleted [ObjNil; ObjStatus "gone"]))
              "c-abc12" ClusterOperatorAPICert) = None.
Proof.
  pose proof (deleted_event_is_ignored clusterIDLabel "c-abc12"
                ClusterOperatorAPICert) as [Hdrop Hwait].
  split.
  - apply (Hdrop (fakeSearcher [deleted ObjNil; added (sampleSecret clusterIDLabel)])
             (fakeSearcher [added (sampleSecret clusterIDLabel)])
             [] ObjNil [added (sampleSecret clusterIDLabel)]); evaluated.
  - apply (Hwait (fakeSearcher (map deleted [ObjNil; ObjStatus "gone"]))
             [ObjNil; ObjStatus "gone"]). evaluated.
Defined.

Lemma failure_causes_and_kinds_witness :
  (∃ format args,
     returned (search clusterIDLabel (fakeSearcher [deleted ObjNil; Closed])
                 "c-abc12" APICert)
     = Some (Err (Maskf executionFailedError format args))) ∧
  (∃ format args,
     returned (search clusterIDLabel
                 (fakeSearcher [deleted ObjNil; errorEvent "unavailable"])
                 "c-abc12" APICert)
     = Some (Err (Maskf executionFailedError format args))) ∧
  (∃ format args,
     returned (search clusterIDLabel (fakeSearcher [deleted ObjNil; TimerFired])
                 "c-abc12" APICert)
     = Some (Err (Maskf timeoutError format args))).
Proof.
  assert (Forall (λ w, skipped w = true) [deleted ObjNil]) as Hpre
    by repeat constructor.
  destruct (failure_causes_and_kinds clusterIDLabel "c-abc12" APICert
              [deleted ObjNil] [] Hpre) as (Hclosed & Herror & Htimer & _).
  split; [|split]; do 2 eexists.
  - apply (Hclosed (fakeSearcher [deleted ObjNil; Closed])). evaluated.
  - apply (Herror (fakeSearcher [deleted ObjNil; errorEvent "unavailable"])
             (ObjStatus "unavailable")). evaluated.
  - apply (Htimer (fakeSearcher [deleted ObjNil; TimerFired])). evaluated.
Defined.

(** The scenario of cluster "c-abc12" and certificate
    "cluster-operator-api". *)
Lemma SearchTLS_returns_the_secret_data_witness :
  returned (SearchTLS clusterIDLabel
              (fakeSearcher [deleted ObjNil; added (sampleSecret clusterIDLabel)])
              "c-abc12" ClusterOperatorAPICert)
  = Some ({| CA := bytes "CA=="; Crt := bytes "CRT=="; Key := bytes "KEY==" |}, None).
Proof.
  apply (SearchTLS_returns_the_secret_data clusterIDLabel
           (fakeSearcher [deleted ObjNil; added (sampleSecret clusterIDLabel)])
           "c-abc12" ClusterOperatorAPICert [deleted ObjNil]
           (sampleSecret clusterIDLabel) []); evaluated.
Defined.

Lemma invalid_secret_is_rejected_witness :
  (∃ err,
     returned (SearchTLS clusterIDLabel
                 (fakeSearcher [added (secretOf clusterIDLabel "c-other" APICert [])])
                 "c-abc12" APICert) = Some (zeroTLS, Some err) ∧
     kindOf err = Some invalidSecretError) ∧
  (∃ err,
     returned (SearchTLS clusterIDLabel
                 (fakeSearcher [added (secretOf clusterIDLabel "c-abc12" APICert ["crt"])])
                 "c-abc12" APICert) = Some (zeroTLS, Some err) ∧
     kindOf err = Some invalidSecretError).
Proof.
  split.
  - destruct (invalid_secret_is_rejected clusterIDLabel
                (fakeSearcher [added (secretOf clusterIDLabel "c-other" APICert [])])
                "c-abc12" APICert [] (secretOf clusterIDLabel "c-other" APICert []) [])
      as (err & Hret & Hkind & _).
    + evaluated.
    + evaluated.
    + left. evaluated.
    + exists err. split; assumption.
  - destruct (invalid_secret_is_rejected clusterIDLabel
                (fakeSearcher [added (secretOf clusterIDLabel "c-abc12" APICert ["crt"])])
                "c-abc12" APICert [] (secretOf clusterIDLabel "c-abc12" APICert ["crt"]) [])
      as (err & Hret & Hkind & _).
    + evaluated.
    + evaluated.
    + right. right. exists "crt". split; evaluated.
    + exists err. split; assumption.
Defined.

Lemma validation_order_witness :
  fillTLSFromSecret clusterIDLabel zeroTLS
    (secretOf clusterIDLabel "c-other" EtcdCert ["ca"; "crt"; "key"])
    "c-abc12" APICert
  = (zeroTLS,
     Some (Maskf invalidSecretError "expected cluster = %q, got %q"
             [AString "c-abc12"; AString "c-other"])) ∧
  fillTLSFromSecret clusterIDLabel zeroTLS
    (secretOf clusterIDLabel "c-abc12" EtcdCert ["ca"; "crt"; "key"])
    "c-abc12" APICert
  = (zeroTLS,
     Some (Maskf invalidSecretError "expected certificate = %q, got %q"
             [AString "api"; AString "etcd"])) ∧
  fillTLSFromSecret clusterIDLabel
    {| CA := bytes "a"; Crt := bytes "b"; Key := bytes "c" |}
    (secretOf clusterIDLabel "c-abc12" APICert ["ca"; "key"])
    "c-abc12" APICert
  = ({| CA := []; Crt := bytes "b"; Key := bytes "c" |},
     Some (Maskf invalidSecretError "%q key missing" [AString "ca"])) ∧
  fillTLSFromSecret clusterIDLabel
    {| CA := bytes "a"; Crt := bytes "b"; Key := bytes "c" |}
    (secretOf clusterIDLabel "c-abc12" APICert ["crt"; "key"])
    "c-abc12" APICert
  = ({| CA := bytes "CA=="; Crt := []; Key := bytes "c" |},
     Some (Maskf invalidSecretError "%q key missing" [AString "crt"])) ∧
  fillTLSFromSecret clusterIDLabel
    {| CA := bytes "a"; Crt := bytes "b"; Key := bytes "c" |}
    (secretOf clusterIDLabel "c-abc12" APICert ["key"])
    "c-abc12" APICert
  = ({| CA := bytes "CA=="; Crt := bytes "CRT=="; Key := [] |},
     Some (Maskf invalidSecretError "%q key missing" [AString "key"])).
Proof.
  split; [|split; [|split; [|split]]].
  - apply (proj1 (validation_order clusterIDLabel zeroTLS
             (secretOf clusterIDLabel "c-other" EtcdCert ["ca"; "crt"; "key"])
             "c-abc12" APICert)).
    vm_compute. discriminate.
  - apply (proj1 (proj2 (validation_order clusterIDLabel zeroTLS
             (secretOf clusterIDLabel "c-abc12" EtcdCert ["ca"; "crt"; "key"])
             "c-abc12" APICert))).
    + reflexivity.
    + vm_compute. discriminate.
  - apply (proj1 (proj2 (proj2 (validation_order clusterIDLabel
             {| CA := bytes "a"; Crt := bytes "b"; Key := bytes "c" |}
             (secretOf clusterIDLabel "c-abc12" APICert ["ca"; "key"])
             "c-abc12" APICert)))); reflexivity.
  - apply (proj1 (proj2 (proj2 (proj2 (validation_order clusterIDLabel
             {| CA := bytes "a"; Crt := bytes "b"; Key := bytes "c" |}
             (secretOf clusterIDLabel "c-abc12" APICert ["crt"; "key"])
             "c-abc12" APICert)))) (bytes "CA==")); reflexivity.
  - apply (proj2 (proj2 (proj2 (proj2 (validation_order clusterIDLabel
             {| CA := bytes "a"; Crt := bytes "b"; Key := bytes "c" |}
             (secretOf clusterIDLabel "c-abc12" APICert ["key"])
             "c-abc12" APICert)))) (bytes "CA==") (bytes "CRT==")); reflexivity.
Defined.

Lemma bundle_searches_are_all_or_nothing_witness :
  returned (SearchClusterOperator clusterIDLabel
              (fakeSearcher [added (sampleSecret clusterIDLabel)]) "c-abc12")
  = Some ({| ClusterOperator.APIServer :=
               {| CA := bytes "CA=="; Crt := bytes "CRT=="; Key := bytes "KEY==" |} |},
          None) ∧
  returned (SearchMonitoring clusterIDLabel
              (fakeSearcher [added (sampleSecret clusterIDLabel)]) "c-abc12")
  = Some (Monitoring.zero,
          Some (Maskf invalidSecretError "expected certificate = %q, got %q"
                  [AString "prometheus"; AString "cluster-operator-api"])).
Proof.
  destruct (bundle_searches_are_all_or_nothing clusterIDLabel "app-operator-api"
              (fakeSearcher [added (sampleSecret clusterIDLabel)]) "c-abc12")
    as (_ & [Hfilled _] & _ & [_ Hfailed]).
  split.
  - apply (Hfilled {| CA := bytes "CA=="; Crt := bytes "CRT=="; Key := bytes "KEY==" |}).
    reflexivity.
  - apply (Hfailed zeroTLS). reflexivity.
Defined.

Lemma NewSearcher_contract_witness :
  (∃ err,
     NewSearcher {| K8sClient := None; Logger := Some micrologger.MkLogger;
                    WatchTimeout := 0%Z |} = Err err ∧
     kindOf err = Some invalidConfigError) ∧
  (∃ s,
     NewSearcher {| K8sClient := Some (fakeClient []);
                    Logger := Some micrologger.MkLogger;
                    WatchTimeout := 0%Z |} = Ok s ∧
     watchTimeout s = 3000000000%Z) ∧
  (∃ s,
     NewSearcher {| K8sClient := Some (fakeClient []);
                    Logger := Some micrologger.MkLogger;
                    WatchTimeout := 500000000%Z |} = Ok s ∧
     watchTimeout s = 500000000%Z).
Proof.
  split; [|split].
  - apply (proj1 (NewSearcher_contract
             {| K8sClient := None; Logger := Some micrologger.MkLogger;
                WatchTimeout := 0%Z |})).
    left. reflexivity.
  - destruct (proj2 (NewSearcher_contract
                {| K8sClient := Some (fakeClient []);
                   Logger := Some micrologger.MkLogger; WatchTimeout := 0%Z |})
                (fakeClient []) micrologger.MkLogger eq_refl eq_refl)
      as (s & Hs & _ & _ & Hdefault & _).
    exists s. split; [exact Hs|]. apply Hdefault. reflexivity.
  - destruct (proj2 (NewSearcher_contract
                {| K8sClient := Some (fakeClient []);
                   Logger := Some micrologger.MkLogger;
                   WatchTimeout := 500000000%Z |})
                (fakeClient []) micrologger.MkLogger eq_refl eq_refl)
      as (s & Hs & _ & _ & _ & Hset).
    exists s. split; [exact Hs|]. apply Hset. discriminate.
Defined.

Lemma secret_name_and_labels_witness :
  K8sSecretName "c-abc12" ClusterOperatorAPICert = "c-abc12-cluster-operator-api" ∧
  K8sSecretLabels "c-abc12" ClusterOperatorAPICert
  = K8sSecretLabels "c-abc12" "cluster-operator-api".
Proof.
  destruct (secret_name_and_labels "c-abc12" "cluster-operator-api")
    as (Hname & _ & _ & _ & _ & _ & Hsame).
  split.
  - exact Hname.
  - apply (Hsame "c-abc12" ClusterOperatorAPICert); reflexivity.
Defined.

(** C1 does not hold of the code. [DefaultWatchTimeout] is documented as
    the time to wait on watches before giving up, but [time.After] is
    called inside the loop, so every event received arms a new timer.
    With a timeout of 400 ms, a Deleted event after 250 ms and the
    secret added after 500 ms, no Added event has come within the
    timeout, and yet the search waits on and succeeds; without the
    Deleted event the same search times out. *)
Theorem deleted_event_rearms_the_timer :
  returned (SearchTLS clusterIDLabel
              (timedSearcher (400 * Millisecond)%Z
                 [ ((250 * Millisecond)%Z,
                    {| watch.type := watch.Deleted; watch.object := ObjNil |});
                   ((500 * Millisecond)%Z,
                    {| watch.type := watch.Added;
                       watch.object := ObjSecret (Some (sampleSecret clusterIDLabel)) |}) ])
              "c-abc12" ClusterOperatorAPICert)
  = Some ({| CA := bytes "CA=="; Crt := bytes "CRT=="; Key := bytes "KEY==" |}, None) ∧
  returned (SearchTLS clusterIDLabel
              (timedSearcher (400 * Millisecond)%Z
                 [ ((500 * Millisecond)%Z,
                    {| watch.type := watch.Added;
                       watch.object := ObjSecret (Some (sampleSecret clusterIDLabel)) |}) ])
              "c-abc12" ClusterOperatorAPICert)
  = Some (zeroTLS,
          Some (Maskf timeoutError "waiting secrets, selector = %q"
                  [AString (LabelSelector
                     (selectorOf clusterIDLabel "c-abc12" ClusterOperatorAPICert))])).
Proof. split; reflexivity. Qed.

(** C2, as stated, fails: a watch whose channel is found closed and a
    watch that delivers an error event make the search fail with errors
    of one and the same kind. *)
Lemma closed_channel_and_error_event_share_their_kind :
  ∃ err1 err2,
    returned (search clusterIDLabel (fakeSearcher [Closed]) "c-abc12" APICert)
    = Some (Err err1) ∧
    returned (search clusterIDLabel (fakeSearcher [errorEvent "unavailable"])
                "c-abc12" APICert)
    = Some (Err err2) ∧
    kindOf err1 = kindOf err2.
Proof. do 2 eexists. repeat split. Qed.

(** A secret that becomes visible two seconds into the watch is found
    by a searcher constructed with the default timeout and missed by one
    constructed with a timeout of one second. *)
Example default_timeout_in_use :
  match NewSearcher {| K8sClient :=
                         Some (slowClient (2 * Second)%Z
                                 {| watch.type := watch.Added;
                                    watch.object :=
                                      ObjSecret (Some (sampleSecret clusterIDLabel)) |});
                       Logger := Some micrologger.MkLogger;
                       WatchTimeout := 0%Z |} with
  | Ok s =>
    returned (SearchTLS clusterIDLabel s "c-abc12" ClusterOperatorAPICert)
    = Some ({| CA := bytes "CA=="; Crt := bytes "CRT=="; Key := bytes "KEY==" |}, None)
  | Err _ => False
  end.
Proof. reflexivity. Qed.

Example short_timeout_in_use :
  match NewSearcher {| K8sClient :=
                         Some (slowClient (2 * Second)%Z
                                 {| watch.type := watch.Added;
                                    watch.object :=
                                      ObjSecret (Some (sampleSecret clusterIDLabel)) |});
                       Logger := Some micrologger.MkLogger;
                       WatchTimeout := Second |} with
  | Ok s =>
    ∃ err,
      returned (SearchTLS clusterIDLabel s "c-abc12" ClusterOperatorAPICert)
      = Some (zeroTLS, Some err) ∧ kindOf err = Some timeoutError
  | Err _ => False
  end.
Proof. simpl. eexists. split; reflexivity. Qed.

(** * Further properties of the searcher and of the catalogue *)

Section Further.

Variable clusterLabel : string.
Variable AppOperatorAPICert : Cert.

(** ** Opening and stopping the watch *)

(** X1. When [Watch] itself returns an error, the search makes that one
    call and no other -- there is no watcher to stop --, and returns the
    client's error as it is; [SearchTLS] returns it with the zero TLS
    value. *)
Theorem watch_open_failure s clusterID cert err :
  kubernetes.Watch (k8sClient s) SecretNamespace
    (selectorOf clusterLabel clusterID cert) = Err err →
  search clusterLabel s clusterID cert =
    {| actions := [WatchAction SecretNamespace (selectorOf clusterLabel clusterID cert)];
       returned := Some (Err err) |} ∧
  returned (SearchTLS clusterLabel s clusterID cert) = Some (zeroTLS, Some err) ∧
  stops (actions (SearchTLS clusterLabel s clusterID cert)) = 0.
Proof.
  intros H. unfold SearchTLS. simpl actions. simpl returned.
  rewrite search_selector, H. done.
Qed.

(** X2. When the watch opens, it is stopped exactly once if the search
    returns, whatever it returns, and not at all while the search is
    still waiting; no second watch is opened. *)
Theorem watcher_stopped_once_on_return s clusterID cert watcher :
  kubernetes.Watch (k8sClient s) SecretNamespace
    (selectorOf clusterLabel clusterID cert) = Ok watcher →
  (is_Some (returned (search clusterLabel s clusterID cert)) →
   actions (search clusterLabel s clusterID cert) =
     [WatchAction SecretNamespace (selectorOf clusterLabel clusterID cert); StopAction]) ∧
  (returned (search clusterLabel s clusterID cert) = None →
   actions (search clusterLabel s clusterID cert) =
     [WatchAction SecretNamespace (selectorOf clusterLabel clusterID cert)]) ∧
  stops (actions (search clusterLabel s clusterID cert)) =
    match returned (search clusterLabel s clusterID cert) with
    | Some _ => 1
    | None => 0
    end.
Proof.
  intros H. rewrite search_selector, H.
  destruct (searchLoop _ _); simpl; repeat split; try done.
  all: by intros [? [=]].
Qed.

(** ** What the loop does with each wakeup *)

Lemma searchLoop_drop_skipped selector pre w post :
  skipped w = true →
  searchLoop selector (pre ++ w :: post) = searchLoop selector (pre ++ post).
Proof.
  intros Hw. induction pre as [|v pre IH].
  - by destruct w as [[[] o]| |].
  - destruct v as [[[] o]| |]; simpl; try done.
Qed.

Lemma searchLoop_decisive selector w post post' :
  skipped w = false →
  is_Some (searchLoop selector (w :: post)) ∧
  searchLoop selector (w :: post) = searchLoop selector (w :: post').
Proof.
  destruct w as [[[] [[secret|]| | |]]| |]; simpl; try done; by eauto.
Qed.

Lemma searchLoop_blocked_iff selector wakeups :
  searchLoop selector wakeups = None ↔ Forall (λ w, skipped w = true) wakeups.
Proof.
  split; [|apply searchLoop_only_skipped].
  induction wakeups as [|w wakeups IH]; [by constructor|].
  destruct (skipped w) eqn:Hw.
  - change (w :: wakeups) with ([w] ++ wakeups)%list.
    rewrite searchLoop_skipped by (by repeat constructor).
    intros H. constructor; [done|by apply IH].
  - intros H. destruct (searchLoop_decisive selector w wakeups wakeups Hw) as [[r Hr] _].
    congruence.
Qed.

Lemma searchLoop_ok_inv selector wakeups secret :
  searchLoop selector wakeups = Some (Ok secret) →
  ∃ pre post : list Wakeup,
    wakeups = (pre ++ added secret :: post)%list ∧
    Forall (λ w, skipped w = true) pre.
Proof.
  induction wakeups as [|w wakeups IH]; [done|].
  destruct w as [[[] o]| |]; simpl; try done;
    try (intros H; destruct (IH H) as (pre & post & -> & Hpre);
         eexists (_ :: pre), post; split; [reflexivity|by constructor]).
  destruct o as [[secret'|]| | |]; try done.
  intros [= ->]. by exists [], wakeups.
Qed.

(** X3. An Added event whose object is not a non-nil [*corev1.Secret]
    -- a nil pointer, a status, a value of another type, no value --
    makes the search fail with [wrongTypeError], naming the object that
    came. *)
Theorem added_event_of_wrong_type s clusterID cert pre object post :
  watches clusterLabel s clusterID cert
    (pre ++ Recv {| watch.type := watch.Added; watch.object := object |} :: post) →
  Forall (λ w, skipped w = true) pre →
  (∀ secret, object ≠ ObjSecret (Some secret)) →
  returned (search clusterLabel s clusterID cert) =
    Some (Err (Maskf wrongTypeError "expected '%T', got '%T'"
                 [AObject (ObjSecret None); AObject object])) ∧
  returned (SearchTLS clusterLabel s clusterID cert) =
    Some (zeroTLS,
          Some (Maskf wrongTypeError "expected '%T', got '%T'"
                  [AObject (ObjSecret None); AObject object])).
Proof.
  intros Hw Hpre Hobject.
  rewrite (search_watches _ _ _ _ _ Hw), (SearchTLS_watches _ _ _ _ _ Hw).
  rewrite searchLoop_skipped by done. simpl.
  destruct object as [[secret|]| | |]; try done.
  by destruct (Hobject secret).
Qed.

(** X4. The search returns at the first wakeup that is not passed over
    and never looks at what comes after it: two watches that agree up
    to and including that wakeup give the same result. In particular a
    first Added secret that fails validation is not made up for by a
    valid one that follows. *)
Theorem first_decisive_wakeup_decides s s' clusterID cert pre w post post' :
  watches clusterLabel s clusterID cert (pre ++ w :: post) →
  watches clusterLabel s' clusterID cert (pre ++ w :: post') →
  Forall (λ w, skipped w = true) pre →
  skipped w = false →
  is_Some (returned (search clusterLabel s clusterID cert)) ∧
  is_Some (returned (SearchTLS clusterLabel s clusterID cert)) ∧
  search clusterLabel s clusterID cert = search clusterLabel s' clusterID cert ∧
  SearchTLS clusterLabel s clusterID cert = SearchTLS clusterLabel s' clusterID cert.
Proof.
  intros Hs Hs' Hpre Hw.
  destruct (searchLoop_decisive (LabelSelector (selectorOf clusterLabel clusterID cert))
              w post post' Hw) as [[r Hr] Heq].
  assert (search clusterLabel s clusterID cert = search clusterLabel s' clusterID cert)
    as Hsame.
  { destruct Hs as (x & Hs & Hx), Hs' as (x' & Hs' & Hx').
    rewrite !search_selector, Hs, Hs', Hx, Hx'.
    by rewrite !searchLoop_skipped, Heq by done. }
  split; [|split; [|split]]; [| |done|].
  - rewrite (search_watches _ _ _ _ _ Hs), searchLoop_skipped, Hr by done. eauto.
  - rewrite (SearchTLS_watches _ _ _ _ _ Hs), searchLoop_skipped, Hr by done.
    destruct r as [secret|err]; [|by eauto].
    destruct (fillTLSFromSecret _ _ _ _ _) as [tls [err|]]; by eauto.
  - unfold SearchTLS. by rewrite Hsame.
Qed.

(** X5. Events of a type without a case in the [switch] -- Modified and
    Bookmark -- are passed over like Deleted ones: taking one out of
    what a watch delivers changes nothing in what the search does. *)
Theorem event_without_case_is_passed_over s s' clusterID cert pre type object post :
  type = watch.Modified ∨ type = watch.Bookmark →
  watches clusterLabel s clusterID cert
    (pre ++ Recv {| watch.type := type; watch.object := object |} :: post) →
  watches clusterLabel s' clusterID cert (pre ++ post) →
  search clusterLabel s clusterID cert = search clusterLabel s' clusterID cert ∧
  SearchTLS clusterLabel s clusterID cert = SearchTLS clusterLabel s' clusterID cert.
Proof.
  intros Htype (x & Hs & Hx) (x' & Hs' & Hx').
  assert (search clusterLabel s clusterID cert = search clusterLabel s' clusterID cert)
    as Hsame.
  { rewrite !search_selector, Hs, Hs', Hx, Hx'.
    rewrite searchLoop_drop_skipped; [done|]. by destruct Htype as [-> | ->]. }
  split; [done|]. unfold SearchTLS. by rewrite Hsame.
Qed.

(** X6. The search is still waiting exactly when its watch opened and
    everything observed on it so far was passed over; in every other
    case it has returned. *)
Theorem search_waits_iff_all_passed_over s clusterID cert :
  returned (search clusterLabel s clusterID cert) = None ↔
  ∃ watcher,
    kubernetes.Watch (k8sClient s) SecretNamespace
      (selectorOf clusterLabel clusterID cert) = Ok watcher ∧
    Forall (λ w, skipped w = true) (observed s watcher).
Proof.
  rewrite search_selector.
  destruct (kubernetes.Watch _ _ _) as [watcher|err] eqn:Hwatch.
  - destruct (searchLoop _ _) as [r|] eqn:Hr; simpl.
    + split; [done|]. intros (x & [= <-] & Hx).
      apply searchLoop_blocked_iff with (selector :=
        LabelSelector (selectorOf clusterLabel clusterID cert)) in Hx. congruence.
    + split; [|done]. intros _. exists watcher. split; [done|].
      by apply searchLoop_blocked_iff in Hr.
  - simpl. split; [done|]. by intros (x & [=] & _).
Qed.

(** ** What a returned value says *)

Lemma fill_ok_inv tls0 secret cluster cert tls :
  fillTLSFromSecret clusterLabel tls0 secret cluster cert = (tls, None) →
  label secret clusterLabel = cluster ∧
  label secret certificateLabel = cert ∧
  Data secret !! "ca" = Some (CA tls) ∧
  Data secret !! "crt" = Some (Crt tls) ∧
  Data secret !! "key" = Some (Key tls).
Proof.
  destruct (decide (label secret clusterLabel = cluster)) as [Hcl|Hcl].
  2: { by rewrite fill_cluster_mismatch. }
  destruct (decide (label secret certificateLabel = cert)) as [Hce|Hce].
  2: { by rewrite fill_certificate_mismatch. }
  rewrite fill_labels_match by done.
  destruct (Data secret !! "ca") as [ca|]; [|done].
  destruct (Data secret !! "crt") as [crt|]; [|done].
  destruct (Data secret !! "key") as [key|]; [|done].
  by intros [= <-].
Qed.

(** X7. [SearchTLS] returns a value without an error only from a
    validated secret: the watch delivered an Added event, preceded by
    nothing but events that are passed over, whose secret carries the
    requested cluster and certificate labels and whose "ca", "crt" and
    "key" data are the three fields returned. *)
Theorem SearchTLS_success_has_a_source s clusterID cert tls :
  returned (SearchTLS clusterLabel s clusterID cert) = Some (tls, None) →
  ∃ (pre : list Wakeup) secret (post : list Wakeup),
    watches clusterLabel s clusterID cert (pre ++ added secret :: post)%list ∧
    Forall (λ w, skipped w = true) pre ∧
    label secret clusterLabel = clusterID ∧
    label secret certificateLabel = cert ∧
    Data secret !! "ca" = Some (CA tls) ∧
    Data secret !! "crt" = Some (Crt tls) ∧
    Data secret !! "key" = Some (Key tls).
Proof.
  unfold SearchTLS. simpl returned. rewrite search_selector.
  destruct (kubernetes.Watch _ _ _) as [watcher|err] eqn:Hwatch; [|done].
  destruct (searchLoop _ _) as [[secret|err]|] eqn:Hloop; simpl; try done.
  destruct (fillTLSFromSecret _ _ _ _ _) as [tls' [err|]] eqn:Hfill; [done|].
  intros [= ->].
  destruct (searchLoop_ok_inv _ _ _ Hloop) as (pre & post & Hobs & Hpre).
  exists pre, secret, post. split; [by exists watcher|].
  split; [done|]. by apply (fill_ok_inv _ _ _ _ _ Hfill).
Qed.

(** X8. Whenever [SearchTLS] returns an error, the TLS value beside it
    is the zero value, and the error is either the one [Watch] returned
    or one of kind [executionFailedError], [timeoutError],
    [wrongTypeError] or [invalidSecretError]. *)
Theorem SearchTLS_failure_shape s clusterID cert tls err :
  returned (SearchTLS clusterLabel s clusterID cert) = Some (tls, Some err) →
  tls = zeroTLS ∧
  (kubernetes.Watch (k8sClient s) SecretNamespace
     (selectorOf clusterLabel clusterID cert) = Err err ∨
   ∃ kind,
     kindOf err = Some kind ∧
     kind ∈ [executionFailedError; timeoutError; wrongTypeError; invalidSecretError]).
Proof.
  unfold SearchTLS. simpl returned. rewrite search_selector.
  destruct (kubernetes.Watch _ _ _) as [watcher|err'] eqn:Hwatch.
  2: { simpl. intros [= <- <-]. by split; [|left]. }
  destruct (searchLoop _ _) as [[secret|err']|] eqn:Hloop; simpl; [| |done].
  - destruct (decide (label secret clusterLabel = clusterID)) as [Hcl|Hcl].
    2: { rewrite fill_cluster_mismatch by done. intros [= <- <-].
         split; [done|]. right. eexists. split; [done|]. by repeat constructor. }
    destruct (decide (label secret certificateLabel = cert)) as [Hce|Hce].
    2: { rewrite fill_certificate_mismatch by done. intros [= <- <-].
         split; [done|]. right. eexists. split; [done|]. by repeat constructor. }
    rewrite fill_labels_match by done.
    destruct (Data secret !! "ca"); [destruct (Data secret !! "crt");
      [destruct (Data secret !! "key")|]|]; try done;
      intros [= <- <-]; (split; [done|]); right; eexists;
      (split; [done|]); by repeat constructor.
  - intros [= <- <-]. split; [done|]. right.
    clear Hwatch. revert Hloop. generalize (observed s watcher) as ws.
    induction ws as [|w ws IH]; [done|].
    destruct w as [[[] [[secret|]| | |]]| |]; simpl; try done;
      intros [= <-]; eexists; (split; [done|]); by repeat constructor.
Qed.

(** ** Bundle searches and their single member *)

Lemma searchBundle_single_actions {B : Type} (zero : B) (c : certificate B) s clusterID :
  actions (searchBundle clusterLabel zero [c] s clusterID)
  = actions (SearchTLS clusterLabel s clusterID (certOf c)).
Proof.
  unfold searchBundle, SearchTLS, task. simpl.
  destruct (returned (search clusterLabel s clusterID (certOf c))) as [[secret|err]|];
    simpl; try apply app_nil_r.
  destruct (fillTLSFromSecret _ _ _ _ _); apply app_nil_r.
Qed.

(** X9. Each bundle search makes exactly the client calls of the
    single-certificate search for its certificate: it opens one watch,
    with the selector of that certificate, and stops it when that search
    would. *)
Theorem bundle_searches_make_the_calls_of_their_member s clusterID :
  actions (SearchAppOperator clusterLabel AppOperatorAPICert s clusterID)
  = actions (SearchTLS clusterLabel s clusterID AppOperatorAPICert) ∧
  actions (SearchClusterOperator clusterLabel s clusterID)
  = actions (SearchTLS clusterLabel s clusterID ClusterOperatorAPICert) ∧
  actions (SearchDraining clusterLabel s clusterID)
  = actions (SearchTLS clusterLabel s clusterID NodeOperatorCert) ∧
  actions (SearchMonitoring clusterLabel s clusterID)
  = actions (SearchTLS clusterLabel s clusterID PrometheusCert).
Proof. repeat split; apply searchBundle_single_actions. Qed.

Lemma searchBundle_single_inv {B : Type} (zero : B) (c : certificate B) s clusterID b err :
  readTLS c zero = zeroTLS →
  returned (searchBundle clusterLabel zero [c] s clusterID) = Some (b, err) →
  match err with
  | None =>
    ∃ tls, b = writeTLS c tls zero ∧
           returned (SearchTLS clusterLabel s clusterID (certOf c)) = Some (tls, None)
  | Some _ =>
    b = zero ∧
    returned (SearchTLS clusterLabel s clusterID (certOf c)) = Some (zeroTLS, err)
  end.
Proof.
  intros Hzero. rewrite searchBundle_single by done.
  unfold SearchTLS. simpl returned.
  destruct (returned (search _ _ _ _)) as [[secret|e]|]; simpl; [| |done].
  - destruct (fillTLSFromSecret _ _ _ _ _) as [tls [e|]]; intros [= <- <-]; eauto.
  - by intros [= <- <-].
Qed.

(** X10. What a bundle search returns comes from its member and from
    nowhere else: a struct returned without an error holds in its TLS
    field the value that the single-certificate search returns without
    an error, and an error returned is the error of that search, beside
    the zero struct. *)
Theorem bundle_results_come_from_the_member s clusterID :
  (∀ b, returned (SearchAppOperator clusterLabel AppOperatorAPICert s clusterID)
        = Some (b, None) →
        returned (SearchTLS clusterLabel s clusterID AppOperatorAPICert)
        = Some (AppOperator.APIServer b, None)) ∧
  (∀ b err, returned (SearchAppOperator clusterLabel AppOperatorAPICert s clusterID)
        = Some (b, Some err) →
        b = AppOperator.zero ∧
        returned (SearchTLS clusterLabel s clusterID AppOperatorAPICert)
        = Some (zeroTLS, Some err)) ∧
  (∀ b, returned (SearchClusterOperator clusterLabel s clusterID) = Some (b, None) →
        returned (SearchTLS clusterLabel s clusterID ClusterOperatorAPICert)
        = Some (ClusterOperator.APIServer b, None)) ∧
  (∀ b err, returned (SearchClusterOperator clusterLabel s clusterID) = Some (b, Some err) →
        b = ClusterOperator.zero ∧
        returned (SearchTLS clusterLabel s clusterID ClusterOperatorAPICert)
        = Some (zeroTLS, Some err)) ∧
  (∀ b, returned (SearchDraining clusterLabel s clusterID) = Some (b, None) →
        returned (SearchTLS clusterLabel s clusterID NodeOperatorCert)
        = Some (Draining.NodeOperator b, None)) ∧
  (∀ b err, returned (SearchDraining clusterLabel s clusterID) = Some (b, Some err) →
        b = Draining.zero ∧
        returned (SearchTLS clusterLabel s clusterID NodeOperatorCert)
        = Some (zeroTLS, Some err)) ∧
  (∀ b, returned (SearchMonitoring clusterLabel s clusterID) = Some (b, None) →
        returned (SearchTLS clusterLabel s clusterID PrometheusCert)
        = Some (Monitoring.Prometheus b, None)) ∧
  (∀ b err, returned (SearchMonitoring clusterLabel s clusterID) = Some (b, Some err) →
        b = Monitoring.zero ∧
        returned (SearchTLS clusterLabel s clusterID PrometheusCert)
        = Some (zeroTLS, Some err)).
Proof.
  repeat match goal with |- _ ∧ _ => split end; intros b.
  all: try (intros H; apply searchBundle_single_inv in H as (tls & -> & H); done).
  all: intros err H; by apply searchBundle_single_inv in H.
Qed.

(** ** Construction *)

(** X11. A searcher that [NewSearcher] returns was given a client and a
    logger, which it keeps, and never waits for a zero duration; a
    negative configured timeout is taken over as it is. *)
Theorem NewSearcher_result_invariant config s :
  NewSearcher config = Ok s →
  K8sClient config = Some (k8sClient s) ∧
  Logger config = Some (logger s) ∧
  watchTimeout s ≠ 0%Z ∧
  ((WatchTimeout config < 0)%Z → watchTimeout s = WatchTimeout config).
Proof.
  unfold NewSearcher.
  destruct (K8sClient config) as [client|]; [|done].
  destruct (Logger config) as [log|]; [|done].
  destruct (Z.eqb_spec (WatchTimeout config) 0) as [Hz|Hz];
    intros [= <-]; simpl; repeat split; try done.
  rewrite Hz. intros H. by apply Z.lt_irrefl in H.
Qed.

(** ** Filling a TLS value *)

Lemma fill_ext tls secret secret' cluster cert :
  label secret' clusterLabel = label secret clusterLabel →
  label secret' certificateLabel = label secret certificateLabel →
  Data secret' = Data secret →
  fillTLSFromSecret clusterLabel tls secret' cluster cert
  = fillTLSFromSecret clusterLabel tls secret cluster cert.
Proof. intros H1 H2 H3. unfold fillTLSFromSecret. by rewrite H1, H2, H3. Qed.

(** X12. The struct handed to [fillTLSFromSecret] has no say in the
    outcome: the error returned is the same for every struct, and when
    there is none the struct returned is the same as well, so nothing of
    the former content survives a successful fill. *)
Theorem fill_outcome_ignores_former_content tls tls' secret cluster cert :
  snd (fillTLSFromSecret clusterLabel tls secret cluster cert)
  = snd (fillTLSFromSecret clusterLabel tls' secret cluster cert) ∧
  (snd (fillTLSFromSecret clusterLabel tls secret cluster cert) = None →
   fillTLSFromSecret clusterLabel tls secret cluster cert
   = fillTLSFromSecret clusterLabel tls' secret cluster cert).
Proof.
  destruct (decide (label secret clusterLabel = cluster)) as [Hcl|Hcl].
  2: { by rewrite !fill_cluster_mismatch. }
  destruct (decide (label secret certificateLabel = cert)) as [Hce|Hce].
  2: { by rewrite !fill_certificate_mismatch. }
  rewrite !fill_labels_match by done.
  destruct (Data secret !! "ca"); [|done].
  destruct (Data secret !! "crt"); [|done].
  by destruct (Data secret !! "key").
Qed.

(** X13. A label that a secret does not have is read as the empty
    string. Validation therefore treats the secret exactly as if it had
    the label with an empty value; a request for a cluster with a
    non-empty ID is refused with a message quoting the empty string. *)
Theorem absent_label_reads_as_empty tls secret cluster cert key :
  Labels secret !! key = None →
  fillTLSFromSecret clusterLabel tls (withLabel key EmptyString secret) cluster cert
  = fillTLSFromSecret clusterLabel tls secret cluster cert ∧
  (key = clusterLabel → cluster ≠ EmptyString →
   fillTLSFromSecret clusterLabel tls secret cluster cert
   = (tls, Some (Maskf invalidSecretError "expected cluster = %q, got %q"
                   [AString cluster; AString EmptyString]))).
Proof.
  intros Hnone.
  assert (∀ k, label (withLabel key EmptyString secret) k = label secret k) as Hlabel.
  { intros k. unfold label, withLabel. simpl.
    destruct (decide (key = k)) as [<-|Hne].
    - by rewrite lookup_insert_eq, Hnone.
    - by rewrite lookup_insert_ne. }
  split; [by apply fill_ext|].
  intros -> Hcluster.
  assert (label secret clusterLabel = EmptyString) as Hempty
    by (unfold label; by rewrite Hnone).
  rewrite fill_cluster_mismatch by congruence. by rewrite Hempty.
Qed.

(** ** Secrets labelled by the catalogue *)

(** X14. The catalogue and the searcher agree when the searcher looks
    the cluster up under one of the two cluster-ID keys that the
    catalogue writes: a secret labelled with [K8sSecretLabels] for a
    cluster and a certificate, and carrying the three data keys, passes
    the validation for that cluster and certificate. *)
Theorem catalogue_labels_pass_validation tls clusterID cert data ca crt key :
  clusterLabel = clusterIDLabel ∨ clusterLabel = legacyClusterIDLabel →
  data !! "ca" = Some ca →
  data !! "crt" = Some crt →
  data !! "key" = Some key →
  fillTLSFromSecret clusterLabel tls
    {| Labels := K8sSecretLabels clusterID cert; Data := data |} clusterID cert
  = ({| CA := ca; Crt := crt; Key := key |}, None).
Proof.
  intros Hlabel Hca Hcrt Hkey.
  rewrite fill_labels_match; simpl.
  - by rewrite Hca, Hcrt, Hkey.
  - apply label_lookup. simpl. destruct Hlabel as [-> | ->];
      unfold K8sSecretLabels; by simplify_map_eq.
  - apply label_lookup. simpl. unfold K8sSecretLabels. by simplify_map_eq.
Qed.

(** X15. When the searcher looks the cluster up under a key that the
    catalogue does not write, a secret labelled with [K8sSecretLabels]
    is refused for every non-empty cluster ID, whatever its data. *)
Theorem foreign_cluster_key_refuses_catalogue_labels tls clusterID cert data :
  K8sSecretLabels clusterID cert !! clusterLabel = None →
  clusterID ≠ EmptyString →
  fillTLSFromSecret clusterLabel tls
    {| Labels := K8sSecretLabels clusterID cert; Data := data |} clusterID cert
  = (tls, Some (Maskf invalidSecretError "expected cluster = %q, got %q"
                  [AString clusterID; AString EmptyString])).
Proof.
  intros Hnone Hid.
  assert (label {| Labels := K8sSecretLabels clusterID cert; Data := data |}
            clusterLabel = EmptyString) as Hempty
    by (unfold label; simpl; by rewrite Hnone).
  rewrite fill_cluster_mismatch by congruence. by rewrite Hempty.
Qed.

End Further.

(** ** Secret names *)

Lemma length_append (a b : string) :
  String.length (a +:+ b) = String.length a + String.length b.
Proof. induction a as [|c a IH]; simpl; [done|by rewrite IH]. Qed.

Lemma append_inj_length (a b x y : string) :
  String.length a = String.length b →
  a +:+ x = b +:+ y → a = b ∧ x = y.
Proof.
  revert b. induction a as [|c a IH]; intros [|d b]; simpl; try done.
  intros [= Hlen] [= -> Happ]. destruct (IH b Hlen Happ) as [-> ->]. done.
Qed.

Lemma dash_free_prefix (a b x y : string) :
  hasDash a = false → hasDash b = false →
  a +:+ String "-" x = b +:+ String "-" y → a = b ∧ x = y.
Proof.
  revert b. induction a as [|c a IH]; intros [|d b]; simpl.
  - by intros _ _ [= ->].
  - intros _ Hb [= <- _]. by rewrite Ascii.eqb_refl in Hb.
  - intros Ha _ [= -> _]. by rewrite Ascii.eqb_refl in Ha.
  - destruct (Ascii.eqb c "-") eqn:Hc; [done|].
    destruct (Ascii.eqb d "-") eqn:Hd; [done|].
    intros Ha Hb [= -> Happ]. destruct (IH b Ha Hb Happ) as [-> ->]. done.
Qed.

Lemma secret_name_inj_cert clusterID : Inj (=) (=) (K8sSecretName clusterID).
Proof.
  intros cert cert' H. unfold K8sSecretName in H.
  apply append_inj_length in H as [_ H]; [|done]. by injection H.
Qed.

(** X16. For one cluster, different certificates get different secret
    names, and for one certificate, different clusters do. *)
Theorem secret_name_injective_in_each_argument clusterID clusterID' cert cert' :
  (K8sSecretName clusterID cert = K8sSecretName clusterID cert' → cert = cert') ∧
  (K8sSecretName clusterID cert = K8sSecretName clusterID' cert →
   clusterID = clusterID').
Proof.
  split; [apply secret_name_inj_cert|].
  unfold K8sSecretName. intros H.
  assert (String.length clusterID = String.length clusterID') as Hlen.
  { apply (f_equal String.length) in H. rewrite !length_append in H. lia. }
  by apply append_inj_length in H as [H _].
Qed.

(** X17. The secret name determines both the cluster and the
    certificate as long as cluster IDs contain no dash: the name is then
    split at its first dash. *)
Theorem secret_name_injective_without_dashes clusterID clusterID' cert cert' :
  hasDash clusterID = false →
  hasDash clusterID' = false →
  K8sSecretName clusterID cert = K8sSecretName clusterID' cert' →
  clusterID = clusterID' ∧ cert = cert'.
Proof. intros Ha Hb H. by apply dash_free_prefix in H. Qed.

(** With a dash in a cluster ID, two pairs can share their name. *)
Example secret_name_collision :
  K8sSecretName "a-b" "c" = K8sSecretName "a" "b-c".
Proof. reflexivity. Qed.

(** X18. The certificates of [AllCerts] are pairwise different, so the
    ten secrets of one cluster have ten different names. *)
Theorem all_certs_have_distinct_names clusterID :
  NoDup AllCerts ∧ NoDup (map (K8sSecretName clusterID) AllCerts).
Proof.
  assert (NoDup AllCerts) as Hcerts.
  { apply (bool_decide_unpack _). vm_compute. reflexivity. }
  split; [done|].
  pose proof (secret_name_inj_cert clusterID) as Hinj.
  by apply (NoDup_fmap_2 (K8sSecretName clusterID)).
Qed.

(** ** The further properties at sample values *)

Lemma watch_open_failure_witness :
  search clusterIDLabel (failingSearcher "refused") "c-abc12" APICert =
    {| actions := [WatchAction SecretNamespace (selectorOf clusterIDLabel "c-abc12" APICert)];
       returned := Some (Err (ClientError "refused")) |} ∧
  returned (SearchTLS clusterIDLabel (failingSearcher "refused") "c-abc12" APICert)
  = Some (zeroTLS, Some (ClientError "refused")) ∧
  stops (actions (SearchTLS clusterIDLabel (failingSearcher "refused") "c-abc12" APICert)) = 0.
Proof.
  apply (watch_open_failure clusterIDLabel (failingSearcher "refused")
           "c-abc12" APICert (ClientError "refused")).
  reflexivity.
Defined.

Lemma watcher_stopped_once_on_return_witness :
  actions (search clusterIDLabel (fakeSearcher [deleted ObjNil; TimerFired])
             "c-abc12" APICert)
  = [WatchAction SecretNamespace (selectorOf clusterIDLabel "c-abc12" APICert);
     StopAction] ∧
  actions (search clusterIDLabel (fakeSearcher [deleted ObjNil]) "c-abc12" APICert)
  = [WatchAction SecretNamespace (selectorOf clusterIDLabel "c-abc12" APICert)].
Proof.
  split.
  - apply (proj1 (watcher_stopped_once_on_return clusterIDLabel
             (fakeSearcher [deleted ObjNil; TimerFired]) "c-abc12" APICert
             (map (λ w _, w) [deleted ObjNil; TimerFired]) eq_refl)).
    eexists. reflexivity.
  - apply (proj1 (proj2 (watcher_stopped_once_on_return clusterIDLabel
             (fakeSearcher [deleted ObjNil]) "c-abc12" APICert
             (map (λ w _, w) [deleted ObjNil]) eq_refl))).
    reflexivity.
Defined.

Lemma added_event_of_wrong_type_witness :
  returned (SearchTLS clusterIDLabel
              (fakeSearcher
                 [deleted ObjNil;
                  Recv {| watch.type := watch.Added; watch.object := ObjSecret None |}])
              "c-abc12" APICert)
  = Some (zeroTLS,
          Some (Maskf wrongTypeError "expected '%T', got '%T'"
                  [AObject (ObjSecret None); AObject (ObjSecret None)])).
Proof.
  apply (added_event_of_wrong_type clusterIDLabel
           (fakeSearcher
              [deleted ObjNil;
               Recv {| watch.type := watch.Added; watch.object := ObjSecret None |}])
           "c-abc12" APICert [deleted ObjNil] (ObjSecret None) []).
  - evaluated.
  - evaluated.
  - intros secret. discriminate.
Defined.

Lemma first_decisive_wakeup_decides_witness :
  SearchTLS clusterIDLabel
    (fakeSearcher [added (secretOf clusterIDLabel "c-other" ClusterOperatorAPICert []);
                   added (sampleSecret clusterIDLabel)])
    "c-abc12" ClusterOperatorAPICert
  = SearchTLS clusterIDLabel
      (fakeSearcher [added (secretOf clusterIDLabel "c-other" ClusterOperatorAPICert [])])
      "c-abc12" ClusterOperatorAPICert.
Proof.
  apply (first_decisive_wakeup_decides clusterIDLabel
           (fakeSearcher [added (secretOf clusterIDLabel "c-other" ClusterOperatorAPICert []);
                          added (sampleSecret clusterIDLabel)])
           (fakeSearcher [added (secretOf clusterIDLabel "c-other" ClusterOperatorAPICert [])])
           "c-abc12" ClusterOperatorAPICert []
           (added (secretOf clusterIDLabel "c-other" ClusterOperatorAPICert []))
           [added (sampleSecret clusterIDLabel)] []); evaluated.
Defined.

Lemma event_without_case_is_passed_over_witness :
  SearchTLS clusterIDLabel
    (fakeSearcher [Recv {| watch.type := watch.Modified;
                           watch.object := ObjSecret (Some (sampleSecret clusterIDLabel)) |};
                   TimerFired])
    "c-abc12" ClusterOperatorAPICert
  = SearchTLS clusterIDLabel (fakeSearcher [TimerFired]) "c-abc12" ClusterOperatorAPICert.
Proof.
  apply (event_without_case_is_passed_over clusterIDLabel
           (fakeSearcher [Recv {| watch.type := watch.Modified;
                                  watch.object := ObjSecret (Some (sampleSecret clusterIDLabel)) |};
                          TimerFired])
           (fakeSearcher [TimerFired])
           "c-abc12" ClusterOperatorAPICert [] watch.Modified
           (ObjSecret (Some (sampleSecret clusterIDLabel))) [TimerFired]).
  - left. reflexivity.
  - evaluated.
  - evaluated.
Defined.

Lemma search_waits_iff_all_passed_over_witness :
  returned (search clusterIDLabel (fakeSearcher [deleted ObjNil; deleted ObjNil])
              "c-abc12" APICert) = None.
Proof.
  apply (proj2 (search_waits_iff_all_passed_over clusterIDLabel
           (fakeSearcher [deleted ObjNil; deleted ObjNil]) "c-abc12" APICert)).
  eexists. split; [reflexivity|]. repeat constructor.
Defined.

Lemma SearchTLS_success_has_a_source_witness :
  ∃ (pre : list Wakeup) secret (post : list Wakeup),
    watches clusterIDLabel
      (fakeSearcher [deleted ObjNil; added (sampleSecret clusterIDLabel)])
      "c-abc12" ClusterOperatorAPICert (pre ++ added secret :: post)%list ∧
    Forall (λ w, skipped w = true) pre ∧
    label secret clusterIDLabel = "c-abc12" ∧
    label secret certificateLabel = ClusterOperatorAPICert ∧
    Data secret !! "ca" = Some (bytes "CA==") ∧
    Data secret !! "crt" = Some (bytes "CRT==") ∧
    Data secret !! "key" = Some (bytes "KEY==").
Proof.
  apply (SearchTLS_success_has_a_source clusterIDLabel
           (fakeSearcher [deleted ObjNil; added (sampleSecret clusterIDLabel)])
           "c-abc12" ClusterOperatorAPICert
           {| CA := bytes "CA=="; Crt := bytes "CRT=="; Key := bytes "KEY==" |}).
  reflexivity.
Defined.

Lemma SearchTLS_failure_shape_witness :
  zeroTLS = zeroTLS ∧
  (kubernetes.Watch (k8sClient (fakeSearcher [TimerFired])) SecretNamespace
     (selectorOf clusterIDLabel "c-abc12" APICert)
   = Err (Maskf timeoutError "waiting secrets, selector = %q"
            [AString (LabelSelector (selectorOf clusterIDLabel "c-abc12" APICert))]) ∨
   ∃ kind,
     kindOf (Maskf timeoutError "waiting secrets, selector = %q"
               [AString (LabelSelector (selectorOf clusterIDLabel "c-abc12" APICert))])
     = Some kind ∧
     kind ∈ [executionFailedError; timeoutError; wrongTypeError; invalidSecretError]).
Proof.
  apply (SearchTLS_failure_shape clusterIDLabel (fakeSearcher [TimerFired])
           "c-abc12" APICert zeroTLS).
  reflexivity.
Defined.

Lemma bundle_results_come_from_the_member_witness :
  returned (SearchTLS clusterIDLabel
              (fakeSearcher [added (sampleSecret clusterIDLabel)])
              "c-abc12" ClusterOperatorAPICert)
  = Some ({| CA := bytes "CA=="; Crt := bytes "CRT=="; Key := bytes "KEY==" |}, None) ∧
  returned (SearchTLS clusterIDLabel (fakeSearcher [Closed]) "c-abc12" PrometheusCert)
  = Some (zeroTLS,
          Some (Maskf executionFailedError
                  "watching secrets, selector = %q: unexpected closed channel"
                  [AString (LabelSelector (selectorOf clusterIDLabel "c-abc12" PrometheusCert))])).
Proof.
  split.
  - destruct (bundle_results_come_from_the_member clusterIDLabel "app-operator-api"
                (fakeSearcher [added (sampleSecret clusterIDLabel)]) "c-abc12")
      as (_ & _ & Hfilled & _).
    apply (Hfilled
             {| ClusterOperator.APIServer :=
                  {| CA := bytes "CA=="; Crt := bytes "CRT=="; Key := bytes "KEY==" |} |}).
    reflexivity.
  - destruct (bundle_results_come_from_the_member clusterIDLabel "app-operator-api"
                (fakeSearcher [Closed]) "c-abc12")
      as (_ & _ & _ & _ & _ & _ & _ & Hfailed).
    apply (Hfailed Monitoring.zero). reflexivity.
Defined.

Lemma NewSearcher_result_invariant_witness :
  watchTimeout {| k8sClient := fakeClient []; logger := micrologger.MkLogger;
                  watchTimeout := (-5)%Z |} ≠ 0%Z.
Proof.
  apply (NewSearcher_result_invariant
           {| K8sClient := Some (fakeClient []); Logger := Some micrologger.MkLogger;
              WatchTimeout := (-5)%Z |}
           {| k8sClient := fakeClient []; logger := micrologger.MkLogger;
              watchTimeout := (-5)%Z |}).
  reflexivity.
Defined.

Lemma fill_outcome_ignores_former_content_witness :
  fillTLSFromSecret clusterIDLabel
    {| CA := bytes "a"; Crt := bytes "b"; Key := bytes "c" |}
    (sampleSecret clusterIDLabel) "c-abc12" ClusterOperatorAPICert
  = fillTLSFromSecret clusterIDLabel zeroTLS
      (sampleSecret clusterIDLabel) "c-abc12" ClusterOperatorAPICert.
Proof.
  apply (fill_outcome_ignores_former_content clusterIDLabel
           {| CA := bytes "a"; Crt := bytes "b"; Key := bytes "c" |} zeroTLS
           (sampleSecret clusterIDLabel) "c-abc12" ClusterOperatorAPICert).
  reflexivity.
Defined.

Lemma absent_label_reads_as_empty_witness :
  fillTLSFromSecret clusterIDLabel zeroTLS
    {| Labels := <[certificateLabel := APICert]> ∅; Data := sampleData |}
    "c-abc12" APICert
  = (zeroTLS,
     Some (Maskf invalidSecretError "expected cluster = %q, got %q"
             [AString "c-abc12"; AString EmptyString])).
Proof.
  apply (absent_label_reads_as_empty clusterIDLabel zeroTLS
           {| Labels := <[certificateLabel := APICert]> ∅; Data := sampleData |}
           "c-abc12" APICert clusterIDLabel).
  - reflexivity.
  - reflexivity.
  - discriminate.
Defined.

Lemma catalogue_labels_pass_validation_witness :
  fillTLSFromSecret legacyClusterIDLabel zeroTLS
    {| Labels := K8sSecretLabels "c-abc12" EtcdCert; Data := sampleData |}
    "c-abc12" EtcdCert
  = ({| CA := bytes "CA=="; Crt := bytes "CRT=="; Key := bytes "KEY==" |}, None).
Proof.
  apply (catalogue_labels_pass_validation legacyClusterIDLabel zeroTLS
           "c-abc12" EtcdCert sampleData).
  - right. reflexivity.
  - reflexivity.
  - reflexivity.
  - reflexivity.
Defined.

Lemma foreign_cluster_key_refuses_catalogue_labels_witness :
  fillTLSFromSecret "giantswarm.io/cluster" zeroTLS
    {| Labels := K8sSecretLabels "c-abc12" EtcdCert; Data := sampleData |}
    "c-abc12" EtcdCert
  = (zeroTLS,
     Some (Maskf invalidSecretError "expected cluster = %q, got %q"
             [AString "c-abc12"; AString EmptyString])).
Proof.
  apply (foreign_cluster_key_refuses_catalogue_labels "giantswarm.io/cluster"
           zeroTLS "c-abc12" EtcdCert sampleData).
  - reflexivity.
  - discriminate.
Defined.

Lemma secret_name_injective_in_each_argument_witness :
  EtcdCert = "etcd" ∧ "c-abc12" = "c-abc12".
Proof.
  split.
  - apply (proj1 (secret_name_injective_in_each_argument "c-abc12" "c-abc12"
                    EtcdCert "etcd")). reflexivity.
  - apply (proj2 (secret_name_injective_in_each_argument "c-abc12" "c-abc12"
                    EtcdCert EtcdCert)). reflexivity.
Defined.

Lemma secret_name_injective_without_dashes_witness :
  "abc12" = "abc12" ∧ CalicoEtcdClientCert = "calico-etcd-client".
Proof.
  apply (secret_name_injective_without_dashes "abc12" "abc12"
           CalicoEtcdClientCert "calico-etcd-client"); reflexivity.
Defined.
